(** * discord-serialport-bot: the serial terminal cog of [main.py]

    A shallow embedding of [SerialCog] (the command/response session run by
    [on_message], the live-terminal sink, the [/set] parameter command) and
    the properties of it that the specification states.

    Conventions of the embedding:
    - a Python [str] is a [string] whose characters are code points below 256;
    - a [bytes] value is a [list byte];
    - clock readings and durations are integers in milliseconds, so that the
      source's [2.0], [5.0], [15.0] seconds read [2000], [5000], [15000];
    - a Python [dict] is a [gmap], a [set] a [gset];
    - an [await] is a point at which the event loop may run another task. *)

From Stdlib Require Import ZArith NArith String Ascii List Bool Lia DecimalString.
From Stdlib.Strings Require Import Byte.
From stdpp Require Import gmap strings list.
Import ListNotations.

Local Open Scope string_scope.
Local Open Scope list_scope.
Local Open Scope Z_scope.

(** ** Python text primitives *)

Module Py.

Definition LF : ascii := "010"%char.
Definition CR : ascii := "013"%char.
Definition nl : string := String LF "".
Definition crlf : string := String CR (String LF "").

(** [str.isspace] on one code point below 256. *)
Definition isspace (c : ascii) : bool :=
  let n := N_of_ascii c in
  (((9 <=? n) && (n <=? 13)) || ((28 <=? n) && (n <=? 32))
   || (n =? 133) || (n =? 160))%N.

(** [str.upper]: ASCII letters are mapped; the other code points are kept
    as they are (Python maps none of them to a text with a letter of CWJAP
    or CWLAP in it, so the same texts contain these two markers). *)
Definition upper_char (c : ascii) : ascii :=
  let n := N_of_ascii c in
  if ((97 <=? n) && (n <=? 122))%N then ascii_of_N (n - 32) else c.

Fixpoint upper (s : string) : string :=
  match s with
  | EmptyString => EmptyString
  | String c s' => String (upper_char c) (upper s')
  end.

(** [s.startswith(p)] *)
Fixpoint startswith (p s : string) : bool :=
  match p, s with
  | EmptyString, _ => true
  | String _ _, EmptyString => false
  | String a p', String b s' => Ascii.eqb a b && startswith p' s'
  end.

(** [needle in hay] on strings. *)
Fixpoint contains (needle hay : string) : bool :=
  startswith needle hay ||
  match hay with
  | EmptyString => false
  | String _ hay' => contains needle hay'
  end.

(** [x in xs] on a list of strings. *)
Definition in_list (x : string) (xs : list string) : bool :=
  existsb (String.eqb x) xs.

(** [s.lstrip(chars)], [s.rstrip(chars)], [s.strip(chars)], the set of
    characters given by its membership test. *)
Fixpoint lstrip_by (p : ascii -> bool) (s : string) : string :=
  match s with
  | EmptyString => EmptyString
  | String c s' => if p c then lstrip_by p s' else s
  end.

Fixpoint rstrip_by (p : ascii -> bool) (s : string) : string :=
  match s with
  | EmptyString => EmptyString
  | String c s' =>
      match rstrip_by p s' with
      | EmptyString => if p c then EmptyString else String c EmptyString
      | r => String c r
      end
  end.

Definition strip_by (p : ascii -> bool) (s : string) : string :=
  rstrip_by p (lstrip_by p s).

(** [s.strip()] *)
Definition strip (s : string) : string := strip_by isspace s.

(** [c in chars] for one character. *)
Fixpoint char_in (chars : string) (c : ascii) : bool :=
  match chars with
  | EmptyString => false
  | String d chars' => Ascii.eqb c d || char_in chars' c
  end.

(** [s.strip(chars)] *)
Definition strip_chars (chars s : string) : string :=
  strip_by (char_in chars) s.

(** [sep.join(xs)] *)
Definition join (sep : string) (xs : list string) : string :=
  String.concat sep xs.

(** [xs[-n:]] for a positive [n]. *)
Definition last_n {A} (n : nat) (xs : list A) : list A :=
  skipn (length xs - n) xs.

(** Every character of [s] passes [p]. *)
Fixpoint all_chars (p : ascii -> bool) (s : string) : bool :=
  match s with
  | EmptyString => true
  | String c s' => p c && all_chars p s'
  end.

End Py.

(** [needle] occurs in [hay] as a contiguous block. *)
Definition Substring (needle hay : string) : Prop :=
  exists pre post, hay = pre +:+ needle +:+ post.

(** ** Response classifier (inlined in [on_message]) *)

(** Lines 274-281: the timeout of a session, in milliseconds. *)
Definition timeout_of_command (command : string) : Z :=
  if Py.contains "CWJAP" command then 45000
  else if Py.contains "CWLAP" command then 20000
  else 15000.

Definition timeout_for (content : string) : Z :=
  let command := Py.upper content in
  timeout_of_command command.

(** Line 347: [response in ["OK", "FAIL", "ERROR"]]. *)
Definition completion_indicators : list string := ["OK"; "FAIL"; "ERROR"].

Definition isCompletionIndicator (response : string) : bool :=
  Py.in_list response completion_indicators.

(** Line 364: [any(status in temp_buffer for status in ["OK","FAIL","ERROR"])]. *)
Definition has_completion (temp_buffer : list string) : bool :=
  existsb (fun status => Py.in_list status temp_buffer) completion_indicators.

(** ** Number formatting and parsing *)

(** [str(n)] for an integer. *)
Definition dec (n : Z) : string := NilZero.string_of_int (Z.to_int n).

(** [f"{timeout}s"] for the three timeouts of the classifier, which are whole
    seconds: a Python float [15.0] prints as [15.0]. *)
Definition render_seconds (ms : Z) : string := dec (ms / 1000) +:+ ".0".

Definition hex_digit (n : N) : ascii :=
  match n with
  | 0%N => "0" | 1%N => "1" | 2%N => "2" | 3%N => "3"
  | 4%N => "4" | 5%N => "5" | 6%N => "6" | 7%N => "7"
  | 8%N => "8" | 9%N => "9" | 10%N => "a" | 11%N => "b"
  | 12%N => "c" | 13%N => "d" | 14%N => "e" | _ => "f"
  end%char.

(** [f"{b:02x}"] *)
Definition hex2 (b : byte) : string :=
  let n := Byte.to_N b in
  String (hex_digit (n / 16)) (String (hex_digit (n mod 16)) EmptyString).

(** Line 354: ["Raw hex data: " + " ".join([f"{b:02x}" for b in raw_response])]. *)
Definition hex_response (raw_response : list byte) : string :=
  "Raw hex data: " +:+ Py.join " " (map hex2 raw_response).

Definition digit_value (c : ascii) : option Z :=
  let n := N_of_ascii c in
  if ((48 <=? n) && (n <=? 57))%N then Some (Z.of_N (n - 48)) else None.

(** The digits of an integer literal of [int(text)]: decimal digits, a single
    underscore allowed between two digits. [after_digit] tells whether the
    previous character was a digit. *)
Fixpoint int_digits (s : string) (acc : Z) (after_digit : bool) : option Z :=
  match s with
  | EmptyString => if after_digit then Some acc else None
  | String c s' =>
      match digit_value c with
      | Some d => int_digits s' (10 * acc + d) true
      | None =>
          if Ascii.eqb c "_" && after_digit then int_digits s' acc false
          else None
      end
  end.

(** The characters that [int(text)] skips at the two ends of the text. The
    text is first mapped by the interpreter to ASCII: a code point from 127
    on that is a space for Unicode becomes a blank (below 256: U+0085 and
    U+00A0), and the parser then skips the ASCII whitespace, tab to carriage
    return and the blank. The separators U+001C to U+001F, which
    [str.strip()] drops, are no whitespace for [int]. *)
Definition int_space (c : ascii) : bool :=
  let n := N_of_ascii c in
  (((9 <=? n) && (n <=? 13)) || (n =? 32) || (n =? 133) || (n =? 160))%N.

(** The number of decimal digits in a text. *)
Fixpoint digit_count (s : string) : N :=
  match s with
  | EmptyString => 0%N
  | String c s' =>
      (match digit_value c with Some _ => 1 | None => 0 end
       + digit_count s')%N
  end.

(** [sys.int_info.default_max_str_digits]: the bot does not change the limit
    of the interpreter. *)
Definition max_str_digits : N := 4300.

(** The literal after the sign: more digits than the limit are refused,
    underscores are not counted. *)
Definition int_literal (digits : string) : option Z :=
  if (digit_count digits <=? max_str_digits)%N
  then int_digits digits 0 false
  else None.

(** [int(text)]: [None] stands for [ValueError]. Whitespace at the two ends
    is skipped, one sign is allowed. *)
Definition py_int (text : string) : option Z :=
  match Py.strip_by int_space text with
  | String "+" digits => int_literal digits
  | String "-" digits => Z.opp <$> int_literal digits
  | digits => int_literal digits
  end.

(** ** Serial parameters: the [/set] command *)

Section Parameters.

(** Python's [float] and its parser [float(text)] ([None] for [ValueError]). *)
Variable float : Type.
Variable py_float : string -> option float.

Inductive value : Type :=
| VInt (n : Z)
| VFloat (x : float)
| VStr (s : string).

(** [self.bot.config] and the contents of [serial_config.json]. *)
Record settings : Type := {
  config : gmap string value;
  config_file : option (gmap string value)
}.

Definition DEFAULT_CONFIG : gmap string value :=
  list_to_map
    [ ("port", VStr "/dev/ttyUSB0"); ("baudrate", VInt 9600);
      ("bytesize", VInt 8); ("parity", VStr "N"); ("stopbits", VInt 1);
      ("timeout", VInt 1); ("encoding", VStr "utf-8");
      ("encoding_errors", VStr "replace") ].

Definition save_config (c : gmap string value) (s : settings) : settings :=
  {| config := config s; config_file := Some c |}.

(** Lines 130-135: the conversion of the text by parameter name; [None] is
    the [ValueError] of [int] or [float]. *)
Definition convert (parameter text : string) : option value :=
  if String.eqb parameter "baudrate" then VInt <$> py_int text
  else if String.eqb parameter "bytesize" then VInt <$> py_int text
  else if String.eqb parameter "stopbits" then VFloat <$> py_float text
  else Some (VStr text).

(** What the command answers. *)
Inductive set_reply : Type :=
| InvalidParameter                                  (* "Invalid parameter. Available parameters: ..." *)
| SetTo (parameter : string) (v : value)            (* "Set {parameter} to {value}" *)
| InvalidValue (parameter : string).                (* "Invalid value format for {parameter}" *)

Definition set_parameter (s : settings) (parameter text : string)
  : settings * set_reply :=
  match config s !! parameter with
  | None => (s, InvalidParameter)
  | Some _ =>
      match convert parameter text with
      | Some v =>
          let s1 := {| config := <[parameter := v]> (config s);
                       config_file := config_file s |} in
          (save_config (config s1) s1, SetTo parameter v)
      | None => (s, InvalidValue parameter)
      end
  end.

End Parameters.

Arguments VInt {float} n.
Arguments VFloat {float} x.
Arguments VStr {float} s.
Arguments config {float} s.
Arguments config_file {float} s.
Arguments InvalidParameter {float}.
Arguments SetTo {float} parameter v.
Arguments InvalidValue {float} parameter.

(** ** The cog, the transport and the chat platform *)

(** What a handler does to the outside, in the order in which it does it.
    [LiveUpdate] marks a call of [update_live_terminal_message]. *)
Inductive action : Type :=
| SerialWrite (data : string)
| SerialFlush
| SerialReadline (raw : list byte)
| Sleep (ms : Z)
| ChannelSend (channel_id : Z) (content : string)
| LiveUpdate (channel_id : Z) (content : string)
| MessageEdit (channel_id message_id : Z) (content : string)
| MessageDelete (channel_id message_id : Z).

(** The actions that are awaited: the event loop may run another handler
    there. The calls on the serial connection are plain blocking calls. *)
Definition is_await (a : action) : bool :=
  match a with
  | SerialWrite _ | SerialFlush | SerialReadline _ => false
  | Sleep _ | ChannelSend _ _ | LiveUpdate _ _
  | MessageEdit _ _ _ | MessageDelete _ _ => true
  end.

(** The state that the handlers share: the bot and cog attributes, the input
    buffer of the serial device (in units of one [readline]) and, of the chat
    platform, the channels the bot can resolve and the contents of messages. *)
Record world : Type := {
  serial_open : bool;                        (* serial_connection and its is_open *)
  rx : list (list byte);
  terminal_channels : gset Z;
  live_terminals : gmap Z Z;                 (* channel_id: message_id *)
  live_buffers : gmap Z (list string);       (* channel_id: buffer *)
  channels : gset Z;
  messages : gmap Z string;                  (* message_id: content *)
  next_message_id : Z
}.

Definition set_rx (q : list (list byte)) (w : world) : world :=
  {| serial_open := serial_open w; rx := q;
     terminal_channels := terminal_channels w;
     live_terminals := live_terminals w; live_buffers := live_buffers w;
     channels := channels w; messages := messages w;
     next_message_id := next_message_id w |}.

Definition set_live (t : gmap Z Z) (b : gmap Z (list string)) (w : world)
  : world :=
  {| serial_open := serial_open w; rx := rx w;
     terminal_channels := terminal_channels w;
     live_terminals := t; live_buffers := b;
     channels := channels w; messages := messages w;
     next_message_id := next_message_id w |}.

Definition set_messages (m : gmap Z string) (n : Z) (w : world) : world :=
  {| serial_open := serial_open w; rx := rx w;
     terminal_channels := terminal_channels w;
     live_terminals := live_terminals w; live_buffers := live_buffers w;
     channels := channels w; messages := m; next_message_id := n |}.

(** [k in d] *)
Definition has_key {V} (d : gmap Z V) (k : Z) : bool :=
  match d !! k with Some _ => true | None => false end.

(** [del d[k]]: [None] stands for [KeyError]. *)
Definition py_del {V} (d : gmap Z V) (k : Z) : option (gmap Z V) :=
  match d !! k with Some _ => Some (delete k d) | None => None end.

(** *** The places where the two live-terminal dictionaries change

    Each of them runs between two awaits, so no other handler sees the state
    in between. *)

(** Lines 216-217. *)
Definition register_live (channel_id message_id : Z) (w : world) : world :=
  set_live (<[channel_id := message_id]> (live_terminals w))
           (<[channel_id := []]> (live_buffers w)) w.

(** Lines 205-206 and 252-253: the two [del] statements in a row. The first
    [KeyError] ends the statement sequence. *)
Definition unregister_live (channel_id : Z) (w : world) : world * bool :=
  match py_del (live_terminals w) channel_id with
  | None => (w, false)
  | Some t =>
      match py_del (live_buffers w) channel_id with
      | None => (set_live t (live_buffers w) w, false)
      | Some b => (set_live t b w, true)
      end
  end.

(** Lines 251-253. *)
Definition remove_invalid_terminal (channel_id : Z) (w : world) : world :=
  if has_key (live_terminals w) channel_id
  then fst (unregister_live channel_id w)
  else w.

(** Lines 378-379. *)
Definition store_live_buffer (channel_id : Z) (buffer : list string)
    (w : world) : world :=
  if has_key (live_terminals w) channel_id
  then set_live (live_terminals w)
                (<[channel_id := buffer]> (live_buffers w)) w
  else w.

(** The cog right after [SerialCog.__init__]. *)
Definition fresh_cog (w : world) : Prop :=
  live_terminals w = ∅ /\ live_buffers w = ∅.

(** One atomic change of the shared state: one of the four places above, or
    anything that leaves the two dictionaries alone. *)
Inductive cog_step : world -> world -> Prop :=
| step_register w channel_id message_id :
    cog_step w (register_live channel_id message_id w)
| step_unregister w channel_id :
    cog_step w (fst (unregister_live channel_id w))
| step_remove_invalid w channel_id :
    cog_step w (remove_invalid_terminal channel_id w)
| step_store w channel_id buffer :
    cog_step w (store_live_buffer channel_id buffer w)
| step_other w w' :
    live_terminals w' = live_terminals w ->
    live_buffers w' = live_buffers w ->
    cog_step w w'.

Inductive reachable : world -> Prop :=
| reachable_init w : fresh_cog w -> reachable w
| reachable_step w w' : reachable w -> cog_step w w' -> reachable w'.

(** *** [/liveterminal] *)

Definition code_block (content : string) : string :=
  "```" +:+ Py.nl +:+ content +:+ Py.nl +:+ "```".

Inductive toggle_outcome : Type :=
| LiveDisabled            (* "Live terminal mode disabled in this channel" *)
| DisableRaised           (* a [del] raised [KeyError]: no reply *)
| LiveEnabled             (* "Live terminal mode enabled in this channel" *)
| EnableRaised.           (* that reply, then [fetch_channel] raised *)

Definition toggle_live_terminal (w : world) (channel_id : Z)
  : world * list action * toggle_outcome :=
  match live_terminals w !! channel_id with
  | Some message_id =>
      (* lines 198-203: delete the message, whatever goes wrong is ignored *)
      let '(w1, acts) :=
        if bool_decide (channel_id ∈ channels w) && has_key (messages w) message_id
        then (set_messages (delete message_id (messages w)) (next_message_id w) w,
              [MessageDelete channel_id message_id])
        else (w, []) in
      match unregister_live channel_id w1 with
      | (w2, true) => (w2, acts, LiveDisabled)
      | (w2, false) => (w2, acts, DisableRaised)
      end
  | None =>
      if bool_decide (channel_id ∈ channels w) then
        let message_id := next_message_id w in
        let text := code_block "Waiting for output..." in
        let w1 := set_messages (<[message_id := text]> (messages w))
                               (message_id + 1) w in
        (register_live channel_id message_id w1,
         [ChannelSend channel_id text], LiveEnabled)
      else (w, [], EnableRaised)
  end.

(** *** [update_live_terminal_message]

    The channel is looked up, then the message; a message that is gone
    unregisters the live terminal; otherwise the message is edited when the
    content differs from its current content without the characters of
    ['```\n'] at both ends. Every exception is caught inside: a key that is
    missing in [live_terminals] changes nothing. The other failures of a
    request to the platform, which the handler prints and ignores, are not
    part of the model. *)
Definition update_live_terminal_message (w : world) (channel_id : Z)
    (content : string) : world * list action :=
  if negb (bool_decide (channel_id ∈ channels w)) then (w, [])
  else
    match live_terminals w !! channel_id with
    | None => (w, [])
    | Some message_id =>
        match messages w !! message_id with
        | None => (remove_invalid_terminal channel_id w, [])
        | Some text =>
            let current_content := Py.strip_chars ("```" +:+ Py.nl) text in
            if negb (String.eqb current_content content) then
              let text' := code_block content in
              (set_messages (<[message_id := text']> (messages w))
                            (next_message_id w) w,
               [MessageEdit channel_id message_id text'])
            else (w, [])
        end
    end.

(** ** The command/response session of [on_message] *)

(** What [raw_response.decode(encoding, errors=encoding_errors)] does. *)
Inductive decoded : Type :=
| Decoded (text : string)
| UnicodeDecodeError
| DecodeRaised (error : string).   (* any other exception, e.g. [LookupError] *)

(** The [ascii] codec with [errors='strict']. *)
Definition decode_ascii_strict (raw : list byte) : decoded :=
  if forallb (fun b => (Byte.to_N b <? 128)%N) raw
  then Decoded (string_of_list_byte raw)
  else UnicodeDecodeError.

(** The [latin-1] codec, which maps every byte to the code point of the same
    number and never fails. *)
Definition decode_latin1 (raw : list byte) : decoded :=
  Decoded (string_of_list_byte raw).

(** The [ascii] codec with an error policy whose name is no error handler
    (as [zzz]): the handler is looked up when the first byte that is not
    ASCII is met, and the lookup raises [LookupError]. *)
Definition decode_ascii_unknown_policy (errors : string) (raw : list byte)
  : decoded :=
  if forallb (fun b => (Byte.to_N b <? 128)%N) raw
  then Decoded (string_of_list_byte raw)
  else DecodeRaised ("unknown error handler name '" +:+ errors +:+ "'").

Record message : Type := {
  author_bot : bool;
  channel_id : Z;
  content : string
}.

(** What the handler observes in one turn of the read loop: the clock when
    the loop condition is evaluated and when [current_time] is taken, the
    lines that the device has sent since the last look at [in_waiting], and
    whether the serial connection raises (with the text of the exception). *)
Record poll : Type := {
  t_cond : Z;
  t_cur : Z;
  arrivals : list (list byte);
  fault : option string
}.

Inductive start_stage : Type := AtWrite | AtFlush | AtReadline.

(** What the handler observes in one session. *)
Record script : Type := {
  start_fault : option (start_stage * string);
  echo_arrivals : list (list byte);
  t_start : Z;
  polls : list poll
}.

(** The local variables of [on_message] in the read loop, the shared state and
    the actions done so far (oldest first). *)
Record loop_state : Type := {
  temp_buffer : list string;
  no_data_count : Z;
  last_read_time : Z;
  last_update_time : Z;
  shared : world;
  done : list action
}.

(** How one line of the drain ended, and how one turn of the loop ended. *)
Inductive flow : Type :=
| Next
| Break
| Raise (error : string).

(** How the loop ended: the condition failed, [break], an exception, or the
    script has no further observation (the handler is still in the loop). *)
Inductive loop_exit : Type :=
| TimedOut
| Broke
| Raised (error : string)
| Polling.

(** [serial_connection.readline()]: the next line of the input buffer; an
    empty [bytes] when the serial timeout expires on an empty buffer. *)
Definition readline (w : world) : list byte * world :=
  match rx w with
  | [] => ([], w)
  | raw :: rest => (raw, set_rx rest w)
  end.

Section Session.

Variable decode : list byte -> decoded.

(** The message being handled and the values fixed before the loop. *)
Variable msg : message.
Variable timeout : Z.
Variable start_time : Z.

Let ch : Z := channel_id msg.

(** Lines 335-344: an accepted line. *)
Definition accept_line (response : string) (s : loop_state) : loop_state :=
  let buffer := temp_buffer s ++ [response] in
  if has_key (live_terminals (shared s)) ch then
    let '(w, acts) :=
      update_live_terminal_message (shared s) ch
        (Py.join Py.nl (Py.last_n 20 buffer)) in
    {| temp_buffer := buffer; no_data_count := no_data_count s;
       last_read_time := last_read_time s;
       last_update_time := last_update_time s; shared := w;
       done := done s ++ LiveUpdate ch (Py.join Py.nl (Py.last_n 20 buffer))
                 :: acts ++ [Sleep 100] |}
  else
    {| temp_buffer := buffer; no_data_count := no_data_count s;
       last_read_time := last_read_time s;
       last_update_time := last_update_time s; shared := shared s;
       done := done s |}.

(** Lines 327-355: the body of the drain for the line just read. *)
Definition drain_line (raw_response : list byte) (s : loop_state)
  : flow * loop_state :=
  match decode raw_response with
  | Decoded text =>
      let response := Py.strip text in
      if negb (String.eqb response "") && negb (String.eqb response (content msg))
      then
        let s1 := accept_line response s in
        if isCompletionIndicator response then
          (Break,
           {| temp_buffer := temp_buffer s1; no_data_count := 999;
              last_read_time := last_read_time s1;
              last_update_time := last_update_time s1; shared := shared s1;
              done := done s1 |})
        else (Next, s1)
      else (Next, s)
  | UnicodeDecodeError =>
      (Next,
       {| temp_buffer := temp_buffer s ++ [hex_response raw_response];
          no_data_count := no_data_count s;
          last_read_time := last_read_time s;
          last_update_time := last_update_time s; shared := shared s;
          done := done s |})
  | DecodeRaised error => (Raise error, s)
  end.

(** Lines 323-355: [while in_waiting: readline ...], by recursion on the
    input buffer [queue] (the value of [rx (shared s)] when the drain starts). *)
Fixpoint drain (queue : list (list byte)) (s : loop_state)
  : flow * loop_state :=
  match queue with
  | [] => (Next, s)
  | raw_response :: rest =>
      let s0 :=
        {| temp_buffer := temp_buffer s; no_data_count := no_data_count s;
           last_read_time := last_read_time s;
           last_update_time := last_update_time s;
           shared := set_rx rest (shared s);
           done := done s ++ [SerialReadline raw_response] |} in
      match drain_line raw_response s0 with
      | (Next, s1) => drain rest s1
      | stop => stop
      end
  end.

(** Lines 310-317: the status shown every five seconds on a live terminal. *)
Definition periodic_status (current_time : Z) (s : loop_state) : loop_state :=
  if has_key (live_terminals (shared s)) ch
     && (5000 <=? current_time - last_update_time s)
  then
    let elapsed := Z.quot (current_time - start_time) 1000 in
    let status :=
      "Command running for " +:+ dec elapsed +:+ "s..." +:+ Py.nl +:+
      match temp_buffer s with
      | [] => ""
      | _ => Py.join Py.nl (Py.last_n 20 (temp_buffer s))
      end in
    let '(w, acts) := update_live_terminal_message (shared s) ch status in
    {| temp_buffer := temp_buffer s; no_data_count := no_data_count s;
       last_read_time := last_read_time s;
       last_update_time := current_time; shared := w;
       done := done s ++ LiveUpdate ch status :: acts |}
  else s.

(** Lines 358-369: the turn that finds no data. *)
Definition idle_turn (current_time : Z) (s : loop_state) : flow * loop_state :=
  let count := no_data_count s + 1 in
  let s1 :=
    {| temp_buffer := temp_buffer s; no_data_count := count;
       last_read_time := last_read_time s;
       last_update_time := last_update_time s; shared := shared s;
       done := done s ++ [Sleep 100] |} in
  if (20 <? count) && (2000 <? current_time - last_read_time s) then
    if has_completion (temp_buffer s) then (Break, s1)
    else if 5000 <? current_time - last_read_time s then
      (Next,
       {| temp_buffer := temp_buffer s; no_data_count := 0;
          last_read_time := last_read_time s;
          last_update_time := last_update_time s; shared := shared s;
          done := done s ++ [Sleep 100] |})
    else (Next, s1)
  else (Next, s1).

(** Lines 319-357: the turn that finds data. The [break] of the drain leaves
    the inner loop only. *)
Definition data_turn (current_time : Z) (queue : list (list byte))
    (s : loop_state) : flow * loop_state :=
  let s1 :=
    {| temp_buffer := temp_buffer s; no_data_count := 0;
       last_read_time := last_read_time s;
       last_update_time := last_update_time s; shared := shared s;
       done := done s |} in
  match drain queue s1 with
  | (Raise error, s2) => (Raise error, s2)
  | (_, s2) =>
      (Next,
       {| temp_buffer := temp_buffer s2; no_data_count := no_data_count s2;
          last_read_time := current_time;
          last_update_time := last_update_time s2; shared := shared s2;
          done := done s2 |})
  end.

(** Lines 308-369: one turn of the read loop. *)
Definition turn (p : poll) (s : loop_state) : flow * loop_state :=
  let current_time := t_cur p in
  let s1 := periodic_status current_time s in
  match fault p with
  | Some error => (Raise error, s1)
  | None =>
      let queue := rx (shared s1) ++ arrivals p in
      let s2 :=
        {| temp_buffer := temp_buffer s1; no_data_count := no_data_count s1;
           last_read_time := last_read_time s1;
           last_update_time := last_update_time s1;
           shared := set_rx queue (shared s1); done := done s1 |} in
      match queue with
      | [] => idle_turn current_time s2
      | _ :: _ => data_turn current_time queue s2
      end
  end.

(** Lines 307-369: the read loop, one observation per turn. *)
Fixpoint read_loop (ps : list poll) (s : loop_state) : loop_exit * loop_state :=
  match ps with
  | [] => (Polling, s)
  | p :: ps' =>
      if t_cond p - start_time <? timeout then
        match turn p s with
        | (Next, s1) => read_loop ps' s1
        | (Break, s1) => (Broke, s1)
        | (Raise error, s1) => (Raised error, s1)
        end
      else (TimedOut, s)
  end.

(** A text for the channel's sinks, as in lines 389-393 and 397-401: a new
    message when the channel is a plain terminal, an update of the live
    message when it is a live terminal. *)
Definition tell_sinks (text : string) (w : world) : world * list action :=
  let sent :=
    if bool_decide (ch ∈ terminal_channels w)
    then [ChannelSend ch text] else [] in
  if has_key (live_terminals w) ch then
    let '(w1, acts) := update_live_terminal_message w ch text in
    (w1, sent ++ LiveUpdate ch text :: acts)
  else (w, sent).

(** Lines 371-383: the final update. *)
Definition final_update (s : loop_state) : world * list action :=
  match temp_buffer s with
  | [] => (shared s, done s)
  | _ :: _ =>
      let joined_responses := Py.join Py.nl (temp_buffer s) in
      let sent :=
        if bool_decide (ch ∈ terminal_channels (shared s))
        then [ChannelSend ch ("```" +:+ joined_responses +:+ "```")]
        else [] in
      if has_key (live_terminals (shared s)) ch then
        let buffer := Py.last_n 20 (temp_buffer s) in
        let w1 := store_live_buffer ch buffer (shared s) in
        let '(w2, acts) :=
          update_live_terminal_message w1 ch (Py.join Py.nl buffer) in
        (w2, done s ++ sent ++ LiveUpdate ch (Py.join Py.nl buffer) :: acts)
      else (shared s, done s ++ sent)
  end.

End Session.

(** How [on_message] ended. *)
Inductive outcome : Type :=
| Ignored
| NotConnected
| Ended (how : loop_exit).

(** Lines 284-290: write the command, flush, read the echo. *)
Definition start_exchange (w : world) (msg : message) (sc : script)
  : option string * world * list action :=
  let written := SerialWrite (content msg +:+ Py.crlf) in
  match start_fault sc with
  | Some (AtWrite, error) => (Some error, w, [])
  | Some (AtFlush, error) => (Some error, w, [written])
  | Some (AtReadline, error) => (Some error, w, [written; SerialFlush])
  | None =>
      let '(echo, w1) := readline (set_rx (rx w ++ echo_arrivals sc) w) in
      (None, w1, [written; SerialFlush; SerialReadline echo])
  end.

(** Lines 260-401. *)
Definition on_message (decode : list byte -> decoded) (w : world)
    (msg : message) (sc : script) : outcome * world * list action :=
  let ch := channel_id msg in
  if author_bot msg then (Ignored, w, [])
  else if negb (bool_decide (ch ∈ terminal_channels w)
                || has_key (live_terminals w) ch)
  then (Ignored, w, [])
  else if Py.startswith "/" (content msg) then (Ignored, w, [])
  else if negb (serial_open w) then
    let '(w1, acts) := tell_sinks msg "Not connected to serial device" w in
    (NotConnected, w1, acts)
  else
    let timeout := timeout_for (content msg) in
    match start_exchange w msg sc with
    | (Some error, w1, acts) =>
        let '(w2, acts2) := tell_sinks msg ("Error: " +:+ error) w1 in
        (Ended (Raised error), w2, acts ++ acts2)
    | (None, w1, acts) =>
        let '(w2, acts2) :=
          if has_key (live_terminals w1) ch then
            let text := "Processing command (timeout: "
                        +:+ render_seconds timeout +:+ "s)..." in
            let '(w2, edits) := update_live_terminal_message w1 ch text in
            (w2, LiveUpdate ch text :: edits)
          else (w1, []) in
        let s0 :=
          {| temp_buffer := []; no_data_count := 0;
             last_read_time := t_start sc; last_update_time := t_start sc;
             shared := w2; done := acts ++ acts2 ++ [Sleep 500] |} in
        match read_loop decode msg timeout (t_start sc) (polls sc) s0 with
        | (Raised error, s) =>
            let '(w3, acts3) := tell_sinks msg ("Error: " +:+ error) (shared s) in
            (Ended (Raised error), w3, done s ++ acts3)
        | (Polling, s) => (Ended Polling, shared s, done s)
        | (how, s) =>
            let '(w3, acts3) := final_update msg s in
            (Ended how, w3, acts3)
        end
    end.

(** ** The event loop

    Every message event is handled by a task of its own; a task runs until it
    awaits, then the event loop picks a task that is ready. A handler is cut
    into the segments that end at its awaits, and a schedule names the task
    whose next segment runs. *)
Fixpoint segments (acts : list action) : list (list action) :=
  match acts with
  | [] => []
  | a :: rest =>
      if is_await a then [a] :: segments rest
      else
        match segments rest with
        | [] => [[a]]
        | seg :: segs => (a :: seg) :: segs
        end
  end.

Fixpoint run_schedule (tasks : list (list (list action))) (schedule : list nat)
  : list (nat * action) :=
  match schedule with
  | [] => []
  | i :: schedule' =>
      match tasks !! i with
      | Some (seg :: rest) =>
          map (pair i) seg ++ run_schedule (<[i := rest]> tasks) schedule'
      | _ => run_schedule tasks schedule'
      end
  end.

Definition is_transport (a : action) : bool :=
  match a with
  | SerialWrite _ | SerialFlush | SerialReadline _ => true
  | _ => false
  end.

(** The handler of one message, as a task. *)
Definition session_task (decode : list byte -> decoded) (w : world)
    (job : message * script) : list (list action) :=
  segments (snd (on_message decode w (fst job) (snd job))).

(** No task uses the transport between two uses of it by another task. *)
Definition Serialized (trace : list (nat * action)) : Prop :=
  forall i j a b c l1 l2 l3 l4,
    trace = l1 ++ (i, a) :: l2 ++ (j, b) :: l3 ++ (i, c) :: l4 ->
    is_transport a = true -> is_transport b = true -> is_transport c = true ->
    i = j.

(** ** Predicates used by the properties *)

(** The value of a lowercase hexadecimal digit. *)
Definition hex_digit_value (c : ascii) : option N :=
  let n := N_of_ascii c in
  if ((48 <=? n) && (n <=? 57))%N then Some (n - 48)%N
  else if ((97 <=? n) && (n <=? 102))%N then Some (n - 87)%N
  else None.

(** The two live-terminal dictionaries have the same keys. *)
Definition same_keys (w : world) : Prop :=
  dom (live_terminals w) =@{gset Z} dom (live_buffers w).

(** The actions of the read loop. *)
Definition loop_action (a : action) : bool :=
  match a with
  | SerialReadline _ | Sleep _ | LiveUpdate _ _ | MessageEdit _ _ _ => true
  | _ => false
  end.

(** The write and the flush of a command. *)
Definition is_send (a : action) : bool :=
  match a with
  | SerialWrite _ | SerialFlush => true
  | _ => false
  end.

Definition is_channel_send (a : action) : bool :=
  match a with
  | ChannelSend _ _ => true
  | _ => false
  end.

(** No send is the last action of the list. *)
Definition send_not_last (acts : list action) : Prop :=
  forall before a, acts = before ++ [a] -> is_send a = false.

(** What a handler may do to the shared state while it runs: steps of
    [cog_step] that keep the plain terminals and add no live terminal. *)
Definition world_evolves (w w' : world) : Prop :=
  rtc cog_step w w' /\
  terminal_channels w' = terminal_channels w /\
  dom (live_terminals w') ⊆ dom (live_terminals w).

(** The same for the loop state: the actions done so far are kept and
    actions of the loop are added behind them. *)
Definition evolves (s s' : loop_state) : Prop :=
  world_evolves (shared s) (shared s') /\
  exists added,
    done s' = done s ++ added /\
    Forall (fun a => loop_action a = true) added.

(** ** Three statements of the specification *)

(** Single-flight serialization: whatever the messages and whatever the
    order in which the event loop runs their handlers, the transport is used
    by one session at a time. *)
Definition single_flight : Prop :=
  forall (decode : list byte -> decoded) (w : world)
         (jobs : list (message * script)) (schedule : list nat),
    Serialized (run_schedule (map (session_task decode w) jobs) schedule).


(** No silent drop: a session that ends at its timeout sends a message to
    the plain terminal of its channel. *)
Definition timeout_reported : Prop :=
  forall (decode : list byte -> decoded) (w w' : world) (msg : message)
         (sc : script) (acts : list action),
    on_message decode w msg sc = (Ended TimedOut, w', acts) ->
    channel_id msg ∈ terminal_channels w ->
    exists text, In (ChannelSend (channel_id msg) text) acts.

(** Decode failures are recovered: whenever the bytes of a raw line do not
    decode, the line in hexadecimal is put at the end of the buffer and the
    drain goes on with the next line. *)
Definition decode_failure_recovered : Prop :=
  forall (decode : list byte -> decoded) (msg : message)
         (raw_response : list byte) (rest : list (list byte))
         (s : loop_state),
    (forall text, decode raw_response <> Decoded text) ->
    drain decode msg (raw_response :: rest) s =
      drain decode msg rest
        {| temp_buffer := temp_buffer s ++ [hex_response raw_response];
           no_data_count := no_data_count s;
           last_read_time := last_read_time s;
           last_update_time := last_update_time s;
           shared := set_rx rest (shared s);
           done := done s ++ [SerialReadline raw_response] |}.

(** ** Sample inputs *)

(** A sample of [float(text)]. It reads the literals made of a sign, digits
    and one optional fraction, as exact decimal fractions (numerator, number
    of decimals), and refuses every other text. *)
Definition plain_digits (s : string) : option Z :=
  if Py.all_chars (fun c => bool_decide (is_Some (digit_value c))) s
  then int_digits s 0 false else None.

Definition unsigned_decimal (t : string) : option (Z * N) :=
  match String.index 0 "." t with
  | None => (fun n => (n, 0%N)) <$> plain_digits t
  | Some i =>
      let whole := String.substring 0 i t in
      let frac := String.substring (S i) (String.length t - S i) t in
      match plain_digits whole, plain_digits frac with
      | Some a, Some b =>
          let k := N.of_nat (String.length frac) in
          Some (a * 10 ^ Z.of_N k + b, k)
      | _, _ => None
      end
  end.

Definition decimal_float (text : string) : option (Z * N) :=
  match Py.strip_by int_space text with
  | String "-" t => (fun x => (- fst x, snd x)) <$> unsigned_decimal t
  | String "+" t => unsigned_decimal t
  | t => unsigned_decimal t
  end.

(** The settings of a bot that found no configuration file. *)
Definition default_settings : settings (Z * N) :=
  {| config := DEFAULT_CONFIG (Z * N); config_file := None |}.

(** A line as the device sends it. *)
Definition text_line (text : string) : list byte :=
  list_byte_of_string (text +:+ Py.crlf).

(** Channel 7 is a plain terminal; the serial connection is open. *)
Definition plain_world : world :=
  {| serial_open := true; rx := []; terminal_channels := {[7]};
     live_terminals := ∅; live_buffers := ∅; channels := {[7]};
     messages := ∅; next_message_id := 100 |}.

(** Channel 7 is a live terminal and a plain terminal: the state after
    [/liveterminal] in [plain_world]. *)
Definition live_world : world := (toggle_live_terminal plain_world 7).1.1.

Definition AT : message :=
  {| author_bot := false; channel_id := 7; content := "AT" |}.

Definition ATGMR : message :=
  {| author_bot := false; channel_id := 7; content := "AT+GMR" |}.


(** A turn of the loop at clock reading [t] in which nothing has arrived. *)
Definition no_data (t : Z) : poll :=
  {| t_cond := t; t_cur := t; arrivals := []; fault := None |}.

(** The loop state of a session that starts at [t] in world [w]. *)
Definition loop_start (t : Z) (w : world) : loop_state :=
  {| temp_buffer := []; no_data_count := 0; last_read_time := t;
     last_update_time := t; shared := w; done := [] |}.


(** The device echoes the command and then sends nothing; the handler looks
    every 100 milliseconds, 150 times, and the loop condition fails at the
    151st look, 15 seconds after the start. *)
Definition silent_device : script :=
  {| start_fault := None; echo_arrivals := [text_line "AT"]; t_start := 500;
     polls := map (fun k => no_data (500 + 100 * Z.of_nat k)) (seq 0 151) |}.

(** The device echoes the command and answers with a byte that is not ASCII
    before [OK]. *)
Definition garbled_answer : script :=
  {| start_fault := None; echo_arrivals := [text_line "AT"]; t_start := 500;
     polls := [ {| t_cond := 500; t_cur := 500;
                   arrivals := [[xff; x0d; x0a]; text_line "OK"];
                   fault := None |} ] |}.

(** The serial connection raises when the read loop first looks at it. *)
Definition unplugged_device : script :=
  {| start_fault := None; echo_arrivals := [text_line "AT"]; t_start := 500;
     polls := [ {| t_cond := 500; t_cur := 500; arrivals := [];
                   fault := Some "device disconnected" |} ] |}.

(** Two commands on the plain terminal of channel 7, with what each handler
    observes when the second one starts while the first one sleeps after its
    echo: the second handler reads the answer [OK] to the first command as
    its echo, and the first handler then reads the echo and the answer of the
    second command. *)
Definition two_commands : list (message * script) :=
  [ (AT,
     {| start_fault := None; echo_arrivals := [text_line "AT"];
        t_start := 500;
        polls := [ {| t_cond := 500; t_cur := 500;
                      arrivals := [text_line "AT+GMR";
                                   text_line "AT version:1.2.0.0";
                                   text_line "OK"];
                      fault := None |} ] |});
    (ATGMR,
     {| start_fault := None; echo_arrivals := [text_line "OK"];
        t_start := 510; polls := [no_data 510] |}) ].

(** ** The other commands of the cog *)

(** *** [/terminal] (lines 149-157) *)

Inductive terminal_reply : Type :=
| TerminalDisabled        (* "Terminal mode disabled in this channel" *)
| TerminalEnabled.        (* "Terminal mode enabled in this channel" *)

Definition set_terminal_channels (t : gset Z) (w : world) : world :=
  {| serial_open := serial_open w; rx := rx w; terminal_channels := t;
     live_terminals := live_terminals w; live_buffers := live_buffers w;
     channels := channels w; messages := messages w;
     next_message_id := next_message_id w |}.

Definition toggle_terminal (w : world) (channel_id : Z)
  : world * terminal_reply :=
  if bool_decide (channel_id ∈ terminal_channels w)
  then (set_terminal_channels (terminal_channels w ∖ {[channel_id]}) w,
        TerminalDisabled)
  else (set_terminal_channels ({[channel_id]} ∪ terminal_channels w) w,
        TerminalEnabled).

(** *** The configuration file, [/encoding] (lines 27-35 and 159-174) *)

(** What the test of line 168, ["test".encode(encoding)], does. *)
Inductive encode_result : Type :=
| Encoded                          (* the bytes are made, and dropped *)
| EncodeLookupError                (* unknown name, or no text encoding *)
| EncodeRaised (error : string).   (* any other exception, e.g. [UnicodeError] *)

Section Encoding.

Variable float : Type.
Variable py_float : string -> option float.

(** The result of ["test".encode(encoding)] by the name of the encoding:
    [LookupError] for a name that is unknown or no text encoding, another
    exception for some names (the codec [undefined] raises [UnicodeError], a
    name with a null character [ValueError]). *)
Variable text_encoding : string -> encode_result.

(** [load_config()], from the contents of the file when it exists. *)
Definition load_config (file : option (gmap string (value float)))
  : gmap string (value float) :=
  match file with
  | Some c => c
  | None => DEFAULT_CONFIG float
  end.

(** [SerialBot.__init__]: the configuration of a bot that starts. *)
Definition startup (file : option (gmap string (value float)))
  : settings float :=
  {| config := load_config file; config_file := file |}.

Inductive encoding_reply : Type :=
| EncodingSet (encoding errors : string)   (* "Set encoding to ... with ... error handling" *)
| InvalidEncoding (encoding : string)      (* "Invalid encoding: ..." *)
| EncodingUncaught (error : string).       (* no reply: the exception leaves the command *)

(** Lines 164-174. Line 173 catches [LookupError] only. *)
Definition set_encoding (s : settings float) (encoding errors : string)
  : settings float * encoding_reply :=
  match text_encoding encoding with
  | Encoded =>
      let c := <["encoding_errors" := VStr errors]>
                 (<["encoding" := VStr encoding]> (config s)) in
      (save_config float c {| config := c; config_file := config_file s |},
       EncodingSet encoding errors)
  | EncodeLookupError => (s, InvalidEncoding encoding)
  | EncodeRaised error => (s, EncodingUncaught error)
  end.

(** The settings that a bot can have: those of the start, changed by [/set]
    and [/encoding]. *)
Inductive settings_reachable : settings float -> Prop :=
| settings_start file : settings_reachable (startup file)
| settings_set s parameter text :
    settings_reachable s ->
    settings_reachable (set_parameter float py_float s parameter text).1
| settings_encoding s encoding errors :
    settings_reachable s ->
    settings_reachable (set_encoding s encoding errors).1.

End Encoding.

(** *** [/connect], [/disconnect], [/flush] (lines 72-112 and 176-188) *)

Module Lifecycle.

Section WithDevice.

Variable float : Type.

(** A [serial.Serial] object: the arguments it was made with, and whether
    the port is open. *)
Record serial : Type := {
  port : value float;
  baudrate : value float;
  bytesize : value float;
  parity : value float;
  stopbits : value float;
  timeout : value float;
  is_open : bool
}.

(** [self.bot.config] and [self.bot.serial_connection]. *)
Record bot : Type := {
  bot_settings : settings float;
  serial_connection : option serial
}.

(** The serial device: the exception, if any, that [serial.Serial(...)]
    raises for the given arguments, and the exception, if any, that the
    reset of its buffers raises. *)
Record device : Type := {
  open_error : serial -> option string;
  reset_error : option string
}.

Inductive reply : Type :=
| AlreadyConnected               (* "Already connected to serial device!" *)
| Connected (p b : value float)  (* "Connected to {port} at {baudrate} baud" *)
| ConnectError (error : string)  (* "Error connecting to serial device: ..." *)
| Disconnected                   (* "Disconnected from serial device" *)
| NotConnected                   (* "Not connected to ..." *)
| Flushed                        (* "Serial buffers flushed" *)
| FlushError (error : string).   (* "Error flushing buffers: ..." *)

(** [config[key]]: a missing key raises [KeyError(key)], whose text is the
    key between quotes. *)
Definition config_item (c : gmap string (value float)) (key : string)
  : value float + string :=
  match c !! key with
  | Some v => inl v
  | None => inr ("'" +:+ key +:+ "'")
  end.

(** The arguments of lines 81-91, evaluated from left to right. *)
Definition serial_arguments (c : gmap string (value float))
  : serial + string :=
  match config_item c "port" with
  | inr e => inr e
  | inl p =>
  match config_item c "baudrate" with
  | inr e => inr e
  | inl b =>
  match config_item c "bytesize" with
  | inr e => inr e
  | inl z =>
  match config_item c "parity" with
  | inr e => inr e
  | inl y =>
  match config_item c "stopbits" with
  | inr e => inr e
  | inl t =>
  match config_item c "timeout" with
  | inr e => inr e
  | inl o =>
      inl {| port := p; baudrate := b; bytesize := z; parity := y;
             stopbits := t; timeout := o; is_open := true |}
  end end end end end end.

(** Lines 74-101. The connection is assigned before its buffers are reset,
    so it stays assigned when the reset raises. *)
Definition connect_serial (d : device) (b : bot) : bot * reply :=
  match serial_connection b with
  | Some _ => (b, AlreadyConnected)
  | None =>
      match serial_arguments (config (bot_settings b)) with
      | inr e => (b, ConnectError e)
      | inl s =>
          match open_error d s with
          | Some e => (b, ConnectError e)
          | None =>
              let b1 := {| bot_settings := bot_settings b;
                           serial_connection := Some s |} in
              match reset_error d with
              | Some e => (b1, ConnectError e)
              | None => (b1, Connected (port s) (baudrate s))
              end
          end
      end
  end.

(** Lines 105-112; [close()] is taken not to raise. *)
Definition disconnect_serial (b : bot) : bot * reply :=
  match serial_connection b with
  | Some _ =>
      ({| bot_settings := bot_settings b; serial_connection := None |},
       Disconnected)
  | None => (b, NotConnected)
  end.

(** Lines 178-188. *)
Definition flush_buffers (d : device) (b : bot) : bot * reply :=
  match serial_connection b with
  | Some s =>
      if is_open s then
        match reset_error d with
        | Some e => (b, FlushError e)
        | None => (b, Flushed)
        end
      else (b, NotConnected)
  | None => (b, NotConnected)
  end.

(** [/set] on the bot: it changes [self.bot.config] and the file. *)
Definition set_on_bot (py_float : string -> option float) (b : bot)
    (change : string * string) : bot :=
  {| bot_settings :=
       (set_parameter float py_float (bot_settings b) change.1 change.2).1;
     serial_connection := serial_connection b |}.

End WithDevice.

End Lifecycle.

(** ** Reading back a line of hexadecimal bytes *)

Definition byte_of_hex (hi lo : ascii) : option byte :=
  match hex_digit_value hi, hex_digit_value lo with
  | Some h, Some l => Byte.of_N (h * 16 + l)
  | _, _ => None
  end.

(** The bytes of a text made of pairs of hexadecimal digits with one blank
    between two pairs; [None] for any other text. *)
Fixpoint unhex (s : string) : option (list byte) :=
  match s with
  | String hi (String lo rest) =>
      match byte_of_hex hi lo with
      | None => None
      | Some b =>
          match rest with
          | EmptyString => Some [b]
          | String sep rest' =>
              if Ascii.eqb sep " " then
                match rest' with
                | EmptyString => None
                | _ => cons b <$> unhex rest'
                end
              else None
          end
      end
  | EmptyString => Some []
  | _ => None
  end.

(** ** More predicates used by the properties *)

Definition is_write (a : action) : bool :=
  match a with
  | SerialWrite _ => true
  | _ => false
  end.

(** Every buffer of a live terminal holds at most twenty lines. *)
Definition buffers_bounded (w : world) : Prop :=
  forall channel_id buffer,
    live_buffers w !! channel_id = Some buffer -> (length buffer <= 20)%nat.

(** The loop state [s'] has the buffer of [s] with lines added at its end,
    none of them empty. *)
Definition buffer_grows (s s' : loop_state) : Prop :=
  exists added,
    temp_buffer s' = temp_buffer s ++ added /\
    Forall (fun line => line <> "") added.

(** ** Sample inputs for the other commands *)

(** A device that opens and resets without an exception. *)
Definition good_device : Lifecycle.device (Z * N) :=
  {| Lifecycle.open_error := fun _ => None; Lifecycle.reset_error := None |}.

(** A bot that has just started without a configuration file. *)
Definition fresh_bot : Lifecycle.bot (Z * N) :=
  {| Lifecycle.bot_settings := default_settings;
     Lifecycle.serial_connection := None |}.

(** The six keys that [/connect] reads. *)
Definition connect_keys : list string :=
  ["port"; "baudrate"; "bytesize"; "parity"; "stopbits"; "timeout"].

(** A sample of ["test".encode(encoding)]: three text encodings, the codec
    [undefined], which raises [UnicodeError] whenever it is used, and, for
    the sample, [LookupError] for every other name. *)
Definition sample_encodings (encoding : string) : encode_result :=
  if Py.in_list encoding ["utf-8"; "ascii"; "latin1"] then Encoded
  else if String.eqb encoding "undefined"
  then EncodeRaised "undefined encoding"
  else EncodeLookupError.

(** The loop state [s] with the actions [before] put before the actions done
    so far. *)
Definition prepend (before : list action) (s : loop_state) : loop_state :=
  {| temp_buffer := temp_buffer s; no_data_count := no_data_count s;
     last_read_time := last_read_time s;
     last_update_time := last_update_time s; shared := shared s;
     done := before ++ done s |}.

(** The script [sc] without a fault at the start, in which the device has
    sent the one line [line] when the echo is read. *)
Definition with_echo (sc : script) (line : list byte) : script :=
  {| start_fault := None; echo_arrivals := [line]; t_start := t_start sc;
     polls := polls sc |}.

(** The three actions at the start of a session whose echo is [line]. *)
Definition exchange (msg : message) (line : list byte) : list action :=
  [SerialWrite (content msg +:+ Py.crlf); SerialFlush; SerialReadline line].

(** * Properties *)

(** ** Text primitives *)

Lemma append_String (c : ascii) (s t : string) :
  String c s +:+ t = String c (s +:+ t).
Proof. reflexivity. Qed.

Lemma append_empty (t : string) : "" +:+ t = t.
Proof. reflexivity. Qed.

Lemma length_append (s t : string) :
  String.length (s +:+ t) = (String.length s + String.length t)%nat.
Proof.
  induction s as [|c s IH]; [reflexivity|].
  rewrite append_String. simpl. now rewrite IH.
Qed.

Lemma startswith_spec (p s : string) :
  Py.startswith p s = true <-> exists post, s = p +:+ post.
Proof.
  revert s. induction p as [|a p IH]; intros s; simpl.
  - split; [intros _; now exists s | reflexivity].
  - destruct s as [|b s].
    + split; [discriminate | intros [post H]; discriminate].
    + rewrite andb_true_iff, Ascii.eqb_eq, IH. split.
      * intros [-> [post ->]]. now exists post.
      * intros [post H]. rewrite append_String in H. injection H as -> ->.
        split; [reflexivity | now exists post].
Qed.

Lemma contains_intro (needle pre post : string) :
  Py.contains needle (pre +:+ needle +:+ post) = true.
Proof.
  induction pre as [|c pre IH].
  - rewrite append_empty.
    assert (H : Py.startswith needle (needle +:+ post) = true).
    { apply startswith_spec. now exists post. }
    destruct (needle +:+ post); simpl; now rewrite H.
  - rewrite append_String. simpl. rewrite IH. apply orb_true_r.
Qed.

Lemma contains_spec (needle hay : string) :
  Py.contains needle hay = true <-> Substring needle hay.
Proof.
  split.
  - induction hay as [|c hay IH]; simpl.
    + rewrite orb_false_r. intros H. apply startswith_spec in H as [post ->].
      now exists "", post.
    + intros H. apply orb_true_iff in H as [H|H].
      * apply startswith_spec in H as [post ->]. now exists "", post.
      * destruct (IH H) as (pre & post & ->). now exists (String c pre), post.
  - intros (pre & post & ->). apply contains_intro.
Qed.

Lemma all_chars_app (p : ascii -> bool) (s t : string) :
  Py.all_chars p (s +:+ t) = Py.all_chars p s && Py.all_chars p t.
Proof.
  induction s as [|c s IH]; [reflexivity|].
  rewrite append_String. simpl. now rewrite IH, andb_assoc.
Qed.

Lemma lstrip_by_split (p : ascii -> bool) (s : string) :
  exists l, Py.all_chars p l = true /\ s = l +:+ Py.lstrip_by p s.
Proof.
  induction s as [|c s (l & Hl & E)]; simpl.
  - now exists "".
  - destruct (p c) eqn:Hc.
    + exists (String c l). simpl. rewrite Hc, Hl. split; [reflexivity|].
      now rewrite append_String, <- E.
    + now exists "".
Qed.

Lemma rstrip_by_split (p : ascii -> bool) (s : string) :
  exists r, Py.all_chars p r = true /\ s = Py.rstrip_by p s +:+ r.
Proof.
  induction s as [|c s (r & Hr & E)]; simpl.
  - now exists "".
  - destruct (Py.rstrip_by p s) as [|d t] eqn:Hs.
    + rewrite append_empty in E. destruct (p c) eqn:Hc.
      * exists (String c r). simpl. rewrite Hc, Hr. now rewrite <- E.
      * exists r. split; [assumption|]. now rewrite append_String, <- E.
    + exists r. split; [assumption|]. now rewrite append_String, <- E.
Qed.

Lemma lstrip_by_space (p : ascii -> bool) (l s : string) :
  Py.all_chars p l = true -> Py.lstrip_by p (l +:+ s) = Py.lstrip_by p s.
Proof.
  induction l as [|c l IH]; [reflexivity|].
  rewrite append_String. simpl.
  intros H. apply andb_true_iff in H as [-> H]. now apply IH.
Qed.

Lemma rstrip_by_all (p : ascii -> bool) (r : string) :
  Py.all_chars p r = true -> Py.rstrip_by p r = "".
Proof.
  induction r as [|c r IH]; simpl; [reflexivity|].
  intros H. apply andb_true_iff in H as [-> H]. now rewrite IH.
Qed.

Lemma rstrip_by_space (p : ascii -> bool) (s r : string) :
  Py.all_chars p r = true -> Py.rstrip_by p (s +:+ r) = Py.rstrip_by p s.
Proof.
  intros H. induction s as [|c s IH].
  - rewrite append_empty. now apply rstrip_by_all.
  - rewrite append_String. simpl. now rewrite IH.
Qed.

Lemma lstrip_by_length (p : ascii -> bool) (s : string) :
  (String.length (Py.lstrip_by p s) <= String.length s)%nat.
Proof.
  induction s as [|d s IH]; simpl; [lia|]. destruct (p d); simpl; lia.
Qed.

(** A text between two runs of strippable characters is what [strip] gives
    back, when its own first and last characters are kept. *)
Lemma strip_by_padded (p : ascii -> bool) (l w r : string) :
  Py.all_chars p l = true -> Py.all_chars p r = true ->
  Py.lstrip_by p w = w -> Py.rstrip_by p w = w ->
  Py.strip_by p (l +:+ w +:+ r) = w.
Proof.
  intros Hl Hr Hw1 Hw2. unfold Py.strip_by.
  rewrite lstrip_by_space by assumption.
  destruct w as [|c w].
  - rewrite append_empty. apply rstrip_by_all.
    destruct (lstrip_by_split p r) as (l' & Hl' & E).
    rewrite E, all_chars_app in Hr. now apply andb_true_iff in Hr as [_ ?].
  - assert (Hc : p c = false).
    { destruct (p c) eqn:Hc; [exfalso | reflexivity].
      simpl in Hw1. rewrite Hc in Hw1.
      pose proof (lstrip_by_length p w) as L.
      rewrite Hw1 in L. simpl in L. lia. }
    rewrite append_String. simpl Py.lstrip_by. rewrite Hc.
    rewrite <- append_String, rstrip_by_space by assumption. exact Hw2.
Qed.

Lemma strip_by_split (p : ascii -> bool) (s : string) :
  exists l r, Py.all_chars p l = true /\ Py.all_chars p r = true /\
              s = l +:+ Py.strip_by p s +:+ r.
Proof.
  destruct (lstrip_by_split p s) as (l & Hl & El).
  destruct (rstrip_by_split p (Py.lstrip_by p s)) as (r & Hr & Er).
  exists l, r. unfold Py.strip_by. now rewrite <- Er.
Qed.

Lemma in_list_spec (x : string) (xs : list string) :
  Py.in_list x xs = true <-> In x xs.
Proof.
  unfold Py.in_list. rewrite existsb_exists. split.
  - intros (y & Hy & E). apply String.eqb_eq in E. now subst.
  - intros H. exists x. split; [assumption | apply String.eqb_refl].
Qed.

(** ** The classifier *)

(** C2: the timeout of a session is a function of the upper-cased command
    text alone: 45 seconds when that text contains CWJAP, otherwise 20
    seconds when it contains CWLAP, otherwise 15 seconds. *)
Theorem timeout_for_classifies :
  exists f : string -> Z,
    (forall content, timeout_for content = f (Py.upper content)) /\
    (forall command,
       (Substring "CWJAP" command /\ f command = 45000) \/
       (~ Substring "CWJAP" command /\ Substring "CWLAP" command /\
        f command = 20000) \/
       (~ Substring "CWJAP" command /\ ~ Substring "CWLAP" command /\
        f command = 15000)).
Proof.
  exists timeout_of_command. split; [reflexivity|].
  intros command. unfold timeout_of_command.
  destruct (Py.contains "CWJAP" command) eqn:J.
  - left. split; [now apply contains_spec | reflexivity].
  - assert (NJ : ~ Substring "CWJAP" command).
    { intros H. apply contains_spec in H. congruence. }
    destruct (Py.contains "CWLAP" command) eqn:L.
    + right; left. repeat split; [assumption | now apply contains_spec].
    + right; right. repeat split; [assumption|].
      intros H. apply contains_spec in H. congruence.
Qed.

(** C3: a response line is a completion indicator exactly when its trimmed
    text is OK, FAIL or ERROR, that is, when the line is one of these three
    words between two (possibly empty) runs of whitespace. *)
Theorem completion_indicator_exact (line : string) :
  (isCompletionIndicator (Py.strip line) = true <->
   Py.strip line = "OK" \/ Py.strip line = "FAIL" \/ Py.strip line = "ERROR")
  /\
  (isCompletionIndicator (Py.strip line) = true <->
   exists l w r,
     Py.all_chars Py.isspace l = true /\ Py.all_chars Py.isspace r = true /\
     In w completion_indicators /\ line = l +:+ w +:+ r).
Proof.
  assert (M : forall x, isCompletionIndicator x = true <->
                        x = "OK" \/ x = "FAIL" \/ x = "ERROR").
  { intros x. unfold isCompletionIndicator. rewrite in_list_spec. simpl.
    intuition congruence. }
  split; [apply M|]. split.
  - intros H. destruct (strip_by_split Py.isspace line) as (l & r & Hl & Hr & E).
    exists l, (Py.strip line), r. repeat split; try assumption.
    now apply in_list_spec.
  - intros (l & w & r & Hl & Hr & Hw & ->). apply M.
    assert (E : Py.strip (l +:+ w +:+ r) = w).
    { apply strip_by_padded; try assumption;
        simpl in Hw; destruct Hw as [<-|[<-|[<-|[]]]]; reflexivity. }
    rewrite E. simpl in Hw. intuition congruence.
Qed.

(** ** The [/set] command *)

Section ParameterFacts.

Variable float : Type.
Variable py_float : string -> option float.

(** C7: for a known parameter, [set_parameter] converts the text by the name
    of the parameter (baudrate and bytesize with [int], stopbits with
    [float], any other parameter keeps the text); a text that does not
    convert is answered with [InvalidValue] and nothing changes; a text that
    converts is stored under the parameter and the configuration is written
    to the file. The text 9600 converts to the integer 9600 and the text
    fast does not convert. *)
Theorem set_parameter_coerces (s : settings float) (parameter text : string)
    (old : value float) :
  config s !! parameter = Some old ->
  let stored v :=
    ({| config := <[parameter := v]> (config s);
        config_file := Some (<[parameter := v]> (config s)) |},
     SetTo parameter v) in
  let refused := (s, InvalidValue parameter) in
  (parameter = "baudrate" \/ parameter = "bytesize" ->
   set_parameter float py_float s parameter text =
     match py_int text with
     | Some n => stored (VInt n)
     | None => refused
     end) /\
  (parameter = "stopbits" ->
   set_parameter float py_float s parameter text =
     match py_float text with
     | Some x => stored (VFloat x)
     | None => refused
     end) /\
  (parameter <> "baudrate" -> parameter <> "bytesize" ->
   parameter <> "stopbits" ->
   set_parameter float py_float s parameter text = stored (VStr text)) /\
  py_int "9600" = Some 9600 /\ py_int "fast" = None.
Proof.
  intros Hold stored refused. unfold set_parameter, convert. rewrite Hold.
  repeat split.
  - intros [-> | ->]; simpl; destruct (py_int text); reflexivity.
  - intros ->. simpl. destruct (py_float text); reflexivity.
  - intros H1 H2 H3.
    apply String.eqb_neq in H1, H2, H3. now rewrite H1, H2, H3.
Qed.

End ParameterFacts.

Lemma set_parameter_coerces_witness :
  set_parameter _ decimal_float default_settings "baudrate" "9600" =
    ({| config := <["baudrate" := VInt 9600]> (DEFAULT_CONFIG _);
        config_file := Some (<["baudrate" := VInt 9600]> (DEFAULT_CONFIG _)) |},
     SetTo "baudrate" (VInt 9600)) /\
  set_parameter _ decimal_float default_settings "baudrate" "fast" =
    (default_settings, InvalidValue "baudrate").
Proof.
  split.
  - destruct (set_parameter_coerces _ decimal_float default_settings
                "baudrate" "9600" (VInt 9600) eq_refl) as (H & _ & _ & E & _).
    rewrite (H (or_introl eq_refl)), E. reflexivity.
  - destruct (set_parameter_coerces _ decimal_float default_settings
                "baudrate" "fast" (VInt 9600) eq_refl) as (H & _ & _ & _ & E).
    rewrite (H (or_introl eq_refl)), E. reflexivity.
Defined.

(** [int] on the edges of its input: the blanks that it skips, the
    separators that only [str.strip()] drops, the sign, the underscores and
    the limit on the number of digits. *)
Lemma py_int_edges :
  py_int (" " +:+ String (ascii_of_N 160) "+9_600" +:+ Py.crlf) = Some 9600 /\
  py_int (String (ascii_of_N 28) "9600") = None /\
  py_int "-0070" = Some (-70) /\
  py_int "+ 5" = None /\ py_int "9__6" = None /\ py_int "96_" = None /\
  py_int "" = None /\ py_int "0x10" = None /\
  is_Some (py_int (string_of_list_ascii (repeat "1"%char 4300))) /\
  py_int (string_of_list_ascii (repeat "0"%char 4301)) = None.
Proof.
  repeat split; try (vm_compute; reflexivity).
  vm_compute. eexists. reflexivity.
Qed.

(** ** Lines that do not decode *)

Lemma hex2_digits (b : byte) :
  exists hi lo,
    hex2 b = String hi (String lo "") /\
    hex_digit_value hi = Some (Byte.to_N b / 16)%N /\
    hex_digit_value lo = Some (Byte.to_N b mod 16)%N.
Proof.
  eexists _, _. split; [reflexivity|]. destruct b; split; reflexivity.
Qed.

Lemma update_live_terminal_message_rx (w : world) (channel_id : Z)
    (content : string) :
  rx (update_live_terminal_message w channel_id content).1 = rx w.
Proof.
  unfold update_live_terminal_message.
  destruct (negb (bool_decide _)); [done|].
  destruct (live_terminals w !! channel_id) as [mid|]; [|done].
  destruct (messages w !! mid) as [text|].
  - by destruct (negb (String.eqb _ content)).
  - unfold remove_invalid_terminal, unregister_live, py_del.
    destruct (has_key _ _); [|done].
    destruct (live_terminals w !! channel_id); [|done].
    by destruct (live_buffers w !! channel_id).
Qed.

Lemma periodic_status_rx (msg : message) (start_time current_time : Z)
    (s : loop_state) :
  rx (shared (periodic_status msg start_time current_time s)) = rx (shared s).
Proof.
  unfold periodic_status. destruct (_ && _); [|done].
  match goal with
  | |- context [update_live_terminal_message ?w ?c ?t] =>
      pose proof (update_live_terminal_message_rx w c t) as H;
      destruct (update_live_terminal_message w c t) as [w1 acts]
  end.
  exact H.
Qed.

(** C6: a raw line that raises [UnicodeDecodeError] puts the line
    [Raw hex data: ] followed by the bytes of the raw line, each as two
    lowercase hexadecimal digits, separated by blanks, at the end of the
    buffer, and the drain goes on with the next line: nothing is raised.
    A raw line whose decoding raises another exception is not recovered:
    the drain stops at the line with that exception, the buffer is as it
    was and the lines that follow stay in the input buffer; when the line
    is the first one that a turn of the read loop finds, the loop ends by
    that exception. *)
Theorem decode_failure_is_buffered (decode : list byte -> decoded)
    (msg : message) (raw_response : list byte) (rest : list (list byte))
    (s : loop_state) :
  (decode raw_response = UnicodeDecodeError ->
   drain decode msg (raw_response :: rest) s =
     drain decode msg rest
       {| temp_buffer :=
            temp_buffer s ++
            ["Raw hex data: " +:+ Py.join " " (map hex2 raw_response)];
          no_data_count := no_data_count s;
          last_read_time := last_read_time s;
          last_update_time := last_update_time s;
          shared := set_rx rest (shared s);
          done := done s ++ [SerialReadline raw_response] |}) /\
  (forall error,
     decode raw_response = DecodeRaised error ->
     drain decode msg (raw_response :: rest) s =
       (Raise error,
        {| temp_buffer := temp_buffer s;
           no_data_count := no_data_count s;
           last_read_time := last_read_time s;
           last_update_time := last_update_time s;
           shared := set_rx rest (shared s);
           done := done s ++ [SerialReadline raw_response] |}) /\
     forall (timeout start_time : Z) (p : poll) (ps : list poll),
       fault p = None ->
       t_cond p - start_time < timeout ->
       rx (shared s) ++ arrivals p = raw_response :: rest ->
       (read_loop decode msg timeout start_time (p :: ps) s).1
         = Raised error) /\
  Forall2
    (fun b h =>
       exists hi lo,
         h = String hi (String lo "") /\
         hex_digit_value hi = Some (Byte.to_N b / 16)%N /\
         hex_digit_value lo = Some (Byte.to_N b mod 16)%N)
    raw_response (map hex2 raw_response).
Proof.
  split; [|split].
  - intros H. simpl. unfold drain_line. rewrite H. reflexivity.
  - intros error H. split.
    + simpl. unfold drain_line. rewrite H. reflexivity.
    + intros timeout start_time p ps Hfault Hlt Hq.
      cbn [read_loop]. apply Z.ltb_lt in Hlt. rewrite Hlt.
      unfold turn. rewrite Hfault, periodic_status_rx, Hq.
      unfold data_turn. cbn [drain]. unfold drain_line. rewrite H.
      reflexivity.
  - induction raw_response as [|b raw IH]; simpl; constructor.
    + apply hex2_digits.
    + exact IH.
Qed.

Lemma decode_failure_is_buffered_witness :
  (decode_ascii_strict [xff; x0d; x0a] = UnicodeDecodeError /\
   drain decode_ascii_strict AT [[xff; x0d; x0a]]
         (loop_start 500 plain_world) =
     (Next,
      {| temp_buffer := ["Raw hex data: ff 0d 0a"]; no_data_count := 0;
         last_read_time := 500; last_update_time := 500;
         shared := plain_world;
         done := [SerialReadline [xff; x0d; x0a]] |})) /\
  (decode_ascii_unknown_policy "zzz" [xff; x0d; x0a]
     = DecodeRaised "unknown error handler name 'zzz'" /\
   drain (decode_ascii_unknown_policy "zzz") AT
         [[xff; x0d; x0a]; text_line "OK"] (loop_start 500 plain_world) =
     (Raise "unknown error handler name 'zzz'",
      {| temp_buffer := []; no_data_count := 0;
         last_read_time := 500; last_update_time := 500;
         shared := set_rx [text_line "OK"] plain_world;
         done := [SerialReadline [xff; x0d; x0a]] |}) /\
   (read_loop (decode_ascii_unknown_policy "zzz") AT 15000 500
              (polls garbled_answer) (loop_start 500 plain_world)).1
     = Raised "unknown error handler name 'zzz'").
Proof.
  split; (split; [reflexivity|]).
  - rewrite (proj1 (decode_failure_is_buffered decode_ascii_strict AT
                      [xff; x0d; x0a] [] (loop_start 500 plain_world))
               eq_refl).
    reflexivity.
  - destruct (proj1 (proj2 (decode_failure_is_buffered
                              (decode_ascii_unknown_policy "zzz") AT
                              [xff; x0d; x0a] [text_line "OK"]
                              (loop_start 500 plain_world)))
                _ eq_refl) as [D L].
    split.
    + rewrite D. reflexivity.
    + apply L; [reflexivity | reflexivity | reflexivity].
Defined.

(** C6, as the specification states it, fails: with the [ascii] codec and
    an error policy of an unknown name, which [/encoding] stores as it is
    given, a byte that is not ASCII raises [LookupError]; line 352 catches
    [UnicodeDecodeError] only, so nothing is put in the buffer and the drain
    ends with the exception. *)
Lemma decode_failure_not_recovered : ~ decode_failure_recovered.
Proof.
  intros H.
  specialize (H (decode_ascii_unknown_policy "zzz") AT [xff; x0d; x0a] []
                (loop_start 500 plain_world)).
  assert (F : forall text,
             decode_ascii_unknown_policy "zzz" [xff; x0d; x0a]
             <> Decoded text) by (intros text; discriminate).
  specialize (H F). vm_compute in H. discriminate H.
Qed.

(** The session of that line: the exception leaves the read loop, the
    answer [OK] is left unread in the input buffer, and the plain terminal
    gets the text of the exception in place of the answer. *)
Lemma unknown_policy_aborts_session :
  on_message (decode_ascii_unknown_policy "zzz") plain_world AT
             garbled_answer
  = (Ended (Raised "unknown error handler name 'zzz'"),
     set_rx [text_line "OK"] plain_world,
     [SerialWrite ("AT" +:+ Py.crlf); SerialFlush;
      SerialReadline (text_line "AT"); Sleep 500;
      SerialReadline [xff; x0d; x0a];
      ChannelSend 7 "Error: unknown error handler name 'zzz'"]).
Proof. vm_compute. reflexivity. Qed.

(** C5, at a line of a live terminal that does not decode: the line in
    hexadecimal is put at the end of the buffer and the handler does nothing
    else, namely no call of [update_live_terminal_message]; a line that
    decodes is put at the end of the buffer and shown at once. *)
Theorem hex_fallback_line_not_delivered :
  let s := loop_start 500 live_world in
  has_key (live_terminals (shared s)) 7 = true /\
  (let r := snd (drain_line decode_ascii_strict AT [xff; x0d; x0a] s) in
   temp_buffer r = ["Raw hex data: ff 0d 0a"] /\ done r = []) /\
  (let r := snd (drain_line decode_ascii_strict AT (text_line "+CWJAP:1") s) in
   temp_buffer r = ["+CWJAP:1"] /\
   done r = [LiveUpdate 7 "+CWJAP:1";
             MessageEdit 7 100 (code_block "+CWJAP:1"); Sleep 100]).
Proof. vm_compute. repeat split. Qed.

Lemma last_n_length {A} (n : nat) (xs : list A) :
  (length (Py.last_n n xs) <= n)%nat.
Proof. unfold Py.last_n. rewrite length_skipn. lia. Qed.

Lemma last_n_suffix {A} (n : nat) (xs : list A) :
  exists front, xs = front ++ Py.last_n n xs.
Proof.
  exists (firstn (length xs - n) xs). unfold Py.last_n.
  symmetry. apply firstn_skipn.
Qed.

Section DrainFacts.

Variable decode : list byte -> decoded.
Variable msg : message.

(** What the drain does for a line that decodes and is accepted, on a live
    terminal: the line goes to the end of the buffer and the last lines of
    the buffer, at most twenty, are shown at once. *)
Lemma accepted_line_delivered (raw : list byte) (text : string)
    (s : loop_state) :
  decode raw = Decoded text ->
  Py.strip text <> "" -> Py.strip text <> content msg ->
  has_key (live_terminals (shared s)) (channel_id msg) = true ->
  let r := (drain_line decode msg raw s).2 in
  temp_buffer r = temp_buffer s ++ [Py.strip text] /\
  exists edits,
    done r = done s
             ++ LiveUpdate (channel_id msg)
                  (Py.join Py.nl (Py.last_n 20 (temp_buffer r)))
             :: edits ++ [Sleep 100].
Proof.
  intros Hd Hne Hecho Hlive. unfold drain_line. rewrite Hd.
  apply String.eqb_neq in Hne, Hecho. rewrite Hne, Hecho. cbn [negb andb].
  unfold accept_line. rewrite Hlive.
  destruct (update_live_terminal_message _ _ _) as [w edits].
  destruct (isCompletionIndicator _); cbn; (split; [done | by exists edits]).
Qed.

(** The drain stops at a line exactly when the line decodes, is accepted and
    is a completion indicator. *)
Lemma drain_line_break_iff (raw : list byte) (s : loop_state) :
  (drain_line decode msg raw s).1 = Break <->
  exists text,
    decode raw = Decoded text /\
    Py.strip text <> "" /\ Py.strip text <> content msg /\
    isCompletionIndicator (Py.strip text) = true.
Proof.
  unfold drain_line. destruct (decode raw) as [text| |error]; cbn [fst].
  - destruct (String.eqb (Py.strip text) "") eqn:E1;
      destruct (String.eqb (Py.strip text) (content msg)) eqn:E2;
      cbn [negb andb fst].
    + apply String.eqb_eq in E1. split; [done|].
      by intros (t & [= <-] & H & _).
    + apply String.eqb_eq in E1. split; [done|].
      by intros (t & [= <-] & H & _).
    + apply String.eqb_eq in E2. split; [done|].
      by intros (t & [= <-] & _ & H & _).
    + apply String.eqb_neq in E1, E2.
      destruct (isCompletionIndicator (Py.strip text)) eqn:E3; cbn [fst].
      * split; [intros _; by exists text | done].
      * split; [done|]. intros (t & [= <-] & _ & _ & H). congruence.
  - split; [done | by intros (t & H & _)].
  - split; [done | by intros (t & H & _)].
Qed.

End DrainFacts.

(** ** The live terminal message *)

(** The content of a message that was written by
    [update_live_terminal_message] is read back unchanged when it neither
    starts nor ends with a backquote or a newline. *)
Lemma strip_code_block (content : string) :
  Py.strip_chars ("```" +:+ Py.nl) content = content ->
  Py.strip_chars ("```" +:+ Py.nl) (code_block content) = content.
Proof.
  intros H. unfold code_block, Py.strip_chars in *.
  set (p := Py.char_in ("```" +:+ Py.nl)) in *.
  destruct (strip_by_split p content) as (l & r & Hl & Hr & E).
  rewrite H in E.
  assert (L : Py.lstrip_by p content = content).
  { destruct content as [|c t]; [reflexivity|]. simpl.
    destruct (p c) eqn:Hc; [exfalso | reflexivity].
    unfold Py.strip_by in H. simpl in H. rewrite Hc in H.
    destruct (rstrip_by_split p (Py.lstrip_by p t)) as (r' & _ & E').
    pose proof (lstrip_by_length p t) as Len.
    rewrite E', H in Len. rewrite length_append in Len.
    simpl in Len. lia. }
  assert (R : Py.rstrip_by p content = content).
  { unfold Py.strip_by in H. now rewrite L in H. }
  replace ("```" +:+ Py.nl +:+ content +:+ Py.nl +:+ "```")
    with (("```" +:+ Py.nl) +:+ content +:+ (Py.nl +:+ "```")) by reflexivity.
  apply strip_by_padded; try assumption; reflexivity.
Qed.

(** Showing a second time a content that is read back unchanged edits
    nothing. *)
Lemma update_twice_clean_content (w : world) (channel_id : Z) (content : string)
    (w1 : world) (edits : list action) :
  Py.strip_chars ("```" +:+ Py.nl) content = content ->
  update_live_terminal_message w channel_id content = (w1, edits) ->
  edits <> [] ->
  update_live_terminal_message w1 channel_id content = (w1, []).
Proof.
  intros Hclean. unfold update_live_terminal_message.
  destruct (bool_decide (channel_id ∈ channels w)) eqn:Hch; simpl;
    [|intros [= <- <-]; congruence].
  destruct (live_terminals w !! channel_id) as [mid|] eqn:Hmid;
    [|intros [= <- <-]; congruence].
  destruct (messages w !! mid) as [text|] eqn:Htext;
    [|intros [= <- <-]; congruence].
  destruct (String.eqb (Py.strip_chars ("```" +:+ Py.nl) text) content) eqn:Hsame;
    simpl; intros [= <- <-]; [congruence|]. intros _.
  simpl. rewrite Hch, Hmid. simpl. rewrite lookup_insert_eq.
  rewrite strip_code_block by assumption. now rewrite String.eqb_refl.
Qed.

(** C8, at a content that starts with a backquote: the same content shown
    twice in a row on a live terminal edits the message twice, because the
    current content is compared after every backquote and newline at its two
    ends is removed. *)
Theorem same_content_edited_twice :
  let first := update_live_terminal_message live_world 7 "`x`" in
  let second := update_live_terminal_message (fst first) 7 "`x`" in
  snd first = [MessageEdit 7 100 (code_block "`x`")] /\
  snd second = [MessageEdit 7 100 (code_block "`x`")] /\
  Py.strip_chars ("```" +:+ Py.nl) (code_block "`x`") = "x".
Proof. vm_compute. repeat split. Qed.

(** ** The two dictionaries of the live terminals *)

Lemma has_key_dom {V} (d : gmap Z V) (k : Z) :
  has_key d k = true <-> k ∈ dom d.
Proof.
  unfold has_key. rewrite elem_of_dom.
  destruct (d !! k) as [v|].
  - split; [intros _; by exists v | done].
  - split; [done | by intros [v Hv]].
Qed.

Lemma difference_absent (X : gset Z) (k : Z) : k ∉ X -> X = X ∖ {[k]}.
Proof.
  intros Hk. symmetry. apply difference_disjoint_L.
  by apply disjoint_singleton_r.
Qed.

Lemma union_present (X : gset Z) (k : Z) : k ∈ X -> X = {[k]} ∪ X.
Proof.
  intros Hk. symmetry. apply subseteq_union_1_L.
  by apply singleton_subseteq_l.
Qed.

Lemma register_live_keys (w : world) (channel_id message_id : Z) :
  dom (live_terminals (register_live channel_id message_id w))
    = {[channel_id]} ∪ dom (live_terminals w) /\
  dom (live_buffers (register_live channel_id message_id w))
    = {[channel_id]} ∪ dom (live_buffers w).
Proof. simpl. by rewrite !dom_insert_L. Qed.

Lemma unregister_live_keys (w : world) (channel_id : Z) :
  same_keys w ->
  dom (live_terminals (unregister_live channel_id w).1)
    = dom (live_terminals w) ∖ {[channel_id]} /\
  dom (live_buffers (unregister_live channel_id w).1)
    = dom (live_buffers w) ∖ {[channel_id]}.
Proof.
  unfold same_keys, unregister_live, py_del. intros Hsame.
  destruct (live_terminals w !! channel_id) as [m|] eqn:Ht.
  - assert (Hin : channel_id ∈ dom (live_buffers w)).
    { rewrite <- Hsame. apply elem_of_dom. by eexists. }
    apply elem_of_dom in Hin as [b Hb]. rewrite Hb. simpl.
    by rewrite !dom_delete_L.
  - assert (Hout : channel_id ∉ dom (live_terminals w)).
    { by apply not_elem_of_dom. }
    simpl. split; [|rewrite <- Hsame]; by apply difference_absent.
Qed.

Lemma remove_invalid_terminal_keys (w : world) (channel_id : Z) :
  same_keys w ->
  dom (live_terminals (remove_invalid_terminal channel_id w))
    = dom (live_terminals w) ∖ {[channel_id]} /\
  dom (live_buffers (remove_invalid_terminal channel_id w))
    = dom (live_buffers w) ∖ {[channel_id]}.
Proof.
  intros Hsame. unfold remove_invalid_terminal.
  destruct (has_key (live_terminals w) channel_id) eqn:Hk.
  - by apply unregister_live_keys.
  - assert (Hout : channel_id ∉ dom (live_terminals w)).
    { rewrite <- has_key_dom. congruence. }
    split; [|rewrite <- Hsame]; by apply difference_absent.
Qed.

Lemma store_live_buffer_keys (w : world) (channel_id : Z)
    (buffer : list string) :
  dom (live_terminals (store_live_buffer channel_id buffer w))
    = dom (live_terminals w) /\
  dom (live_buffers (store_live_buffer channel_id buffer w))
    = (if has_key (live_terminals w) channel_id
       then {[channel_id]} ∪ dom (live_buffers w)
       else dom (live_buffers w)).
Proof.
  unfold store_live_buffer.
  destruct (has_key (live_terminals w) channel_id); simpl; [|done].
  by rewrite dom_insert_L.
Qed.

Lemma cog_step_same_keys (w w' : world) :
  same_keys w -> cog_step w w' -> same_keys w'.
Proof.
  intros Hsame Hstep. unfold same_keys in *.
  destruct Hstep as [w c m | w c | w c | w c b | w w' Ht Hb].
  - destruct (register_live_keys w c m) as [-> ->]. by rewrite Hsame.
  - destruct (unregister_live_keys w c Hsame) as [-> ->]. by rewrite Hsame.
  - destruct (remove_invalid_terminal_keys w c Hsame) as [-> ->]. by rewrite Hsame.
  - destruct (store_live_buffer_keys w c b) as [-> ->].
    destruct (has_key (live_terminals w) c) eqn:Hk; [|done].
    apply has_key_dom in Hk. rewrite <- Hsame. by apply union_present.
  - by rewrite Ht, Hb.
Qed.

(** C10: in every state that the cog reaches from its creation, the
    dictionary of the live terminals and the dictionary of their buffers have
    the same keys; enabling a live terminal adds the channel to both,
    disabling it and the removal of an invalid terminal take the channel out
    of both. *)
Theorem live_dictionaries_same_keys (w : world) :
  reachable w ->
  dom (live_terminals w) =@{gset Z} dom (live_buffers w) /\
  (forall channel_id message_id,
     let w' := register_live channel_id message_id w in
     dom (live_terminals w') = {[channel_id]} ∪ dom (live_terminals w) /\
     dom (live_buffers w') = {[channel_id]} ∪ dom (live_terminals w)) /\
  (forall channel_id,
     let w' := (unregister_live channel_id w).1 in
     dom (live_terminals w') = dom (live_terminals w) ∖ {[channel_id]} /\
     dom (live_buffers w') = dom (live_terminals w) ∖ {[channel_id]}) /\
  (forall channel_id,
     let w' := remove_invalid_terminal channel_id w in
     dom (live_terminals w') = dom (live_terminals w) ∖ {[channel_id]} /\
     dom (live_buffers w') = dom (live_terminals w) ∖ {[channel_id]}).
Proof.
  intros Hr.
  assert (H : same_keys w).
  { induction Hr as [w [Ht Hb] | w w' _ IH Hstep].
    - unfold same_keys. by rewrite Ht, Hb.
    - by apply (cog_step_same_keys w w'). }
  split; [exact H|]. unfold same_keys in H. repeat split.
  - apply register_live_keys.
  - rewrite H. apply register_live_keys.
  - by apply unregister_live_keys.
  - rewrite H. by apply unregister_live_keys.
  - by apply remove_invalid_terminal_keys.
  - rewrite H. by apply remove_invalid_terminal_keys.
Qed.

Lemma live_dictionaries_same_keys_witness :
  reachable live_world /\
  dom (live_terminals live_world) =@{gset Z} dom (live_buffers live_world).
Proof.
  assert (R : reachable live_world).
  { apply (reachable_step
             (set_messages
                (<[100 := code_block "Waiting for output..."]> ∅) 101
                plain_world)).
    - apply reachable_init. split; reflexivity.
    - apply (step_register _ 7 100). }
  split; [exact R|].
  exact (proj1 (live_dictionaries_same_keys live_world R)).
Defined.

(** *** The handlers change the dictionaries by the steps of [cog_step] *)

Lemma steps_other (w w' : world) :
  live_terminals w' = live_terminals w ->
  live_buffers w' = live_buffers w ->
  rtc cog_step w w'.
Proof. intros Ht Hb. apply rtc_once. by apply step_other. Qed.

Lemma update_live_terminal_message_steps (w : world) (channel_id : Z)
    (content : string) :
  rtc cog_step w (update_live_terminal_message w channel_id content).1.
Proof.
  unfold update_live_terminal_message.
  destruct (negb (bool_decide (channel_id ∈ channels w))); [done|].
  destruct (live_terminals w !! channel_id) as [mid|]; [|done].
  destruct (messages w !! mid) as [text|].
  - destruct (negb (String.eqb _ content)); [|done].
    by apply steps_other.
  - apply rtc_once, step_remove_invalid.
Qed.

Lemma toggle_live_terminal_steps (w : world) (channel_id : Z) :
  rtc cog_step w (toggle_live_terminal w channel_id).1.1.
Proof.
  unfold toggle_live_terminal.
  destruct (live_terminals w !! channel_id) as [mid|].
  - set (w1 := if bool_decide (channel_id ∈ channels w) && has_key (messages w) mid
               then _ else _).
    assert (H1 : rtc cog_step w w1.1).
    { unfold w1. destruct (_ && _); [by apply steps_other | done]. }
    destruct w1 as [w1' acts]. simpl in H1.
    pose proof (step_unregister w1' channel_id) as H2.
    destruct (unregister_live channel_id w1') as [w2 []]; simpl in *;
      by eapply rtc_r.
  - destruct (bool_decide (channel_id ∈ channels w)); [|done]. simpl.
    eapply rtc_l; [|apply rtc_once, step_register]. by apply step_other.
Qed.

(** ** What the read loop does to the shared state and to the actions *)

Lemma world_evolves_refl (w : world) : world_evolves w w.
Proof. by repeat split. Qed.

Lemma world_evolves_trans (w1 w2 w3 : world) :
  world_evolves w1 w2 -> world_evolves w2 w3 -> world_evolves w1 w3.
Proof.
  intros (S1 & T1 & L1) (S2 & T2 & L2). repeat split.
  - by etrans.
  - congruence.
  - by etrans.
Qed.

Lemma world_evolves_other (w w' : world) :
  live_terminals w' = live_terminals w ->
  live_buffers w' = live_buffers w ->
  terminal_channels w' = terminal_channels w ->
  world_evolves w w'.
Proof.
  intros Ht Hb Hp. repeat split; [by apply steps_other | done |].
  by rewrite Ht.
Qed.

Lemma remove_invalid_terminal_evolves (w : world) (channel_id : Z) :
  world_evolves w (remove_invalid_terminal channel_id w).
Proof.
  repeat split.
  - apply rtc_once, step_remove_invalid.
  - unfold remove_invalid_terminal, unregister_live, py_del.
    destruct (has_key _ _); [|done].
    destruct (live_terminals w !! channel_id); [|done].
    by destruct (live_buffers w !! channel_id).
  - unfold remove_invalid_terminal, unregister_live, py_del.
    destruct (has_key _ _); [|done].
    destruct (live_terminals w !! channel_id); [|done].
    destruct (live_buffers w !! channel_id); simpl;
      rewrite dom_delete; apply subseteq_difference_l; done.
Qed.

Lemma update_live_terminal_message_evolves (w : world) (channel_id : Z)
    (content : string) :
  world_evolves w (update_live_terminal_message w channel_id content).1 /\
  Forall (fun a => loop_action a = true)
         (update_live_terminal_message w channel_id content).2.
Proof.
  unfold update_live_terminal_message.
  destruct (negb (bool_decide (channel_id ∈ channels w)));
    [split; [apply world_evolves_refl | constructor]|].
  destruct (live_terminals w !! channel_id) as [mid|];
    [|split; [apply world_evolves_refl | constructor]].
  destruct (messages w !! mid) as [text|].
  - destruct (negb (String.eqb _ content));
      [|split; [apply world_evolves_refl | constructor]].
    split; [by apply world_evolves_other | by repeat constructor].
  - split; [apply remove_invalid_terminal_evolves | constructor].
Qed.

Lemma evolves_refl (s : loop_state) : evolves s s.
Proof.
  split; [apply world_evolves_refl|]. exists []. by rewrite app_nil_r.
Qed.

Lemma evolves_trans (s1 s2 s3 : loop_state) :
  evolves s1 s2 -> evolves s2 s3 -> evolves s1 s3.
Proof.
  intros (W1 & a1 & D1 & F1) (W2 & a2 & D2 & F2). split.
  - by eapply world_evolves_trans.
  - exists (a1 ++ a2). split.
    + by rewrite D2, D1, app_assoc.
    + by apply Forall_app.
Qed.

(** A state that differs in the local variables only. *)
Lemma evolves_locals (s s' : loop_state) :
  shared s' = shared s -> done s' = done s -> evolves s s'.
Proof.
  intros Hw Hd. split.
  - rewrite Hw. apply world_evolves_refl.
  - exists []. by rewrite app_nil_r.
Qed.

Section LoopFacts.

Variable decode : list byte -> decoded.
Variable msg : message.
Variable timeout : Z.
Variable start_time : Z.

Lemma accept_line_evolves (response : string) (s : loop_state) :
  evolves s (accept_line msg response s).
Proof.
  unfold accept_line.
  destruct (has_key _ _); [|by apply evolves_locals].
  pose proof (update_live_terminal_message_evolves (shared s) (channel_id msg)
    (Py.join Py.nl (Py.last_n 20 (temp_buffer s ++ [response])))) as [W F].
  destruct (update_live_terminal_message _ _ _) as [w acts]. simpl in *.
  split; [exact W|]. eexists. split; [reflexivity|].
  constructor; [done|]. apply Forall_app. split; [exact F | by repeat constructor].
Qed.

Lemma drain_line_evolves (raw : list byte) (s : loop_state) :
  evolves s (drain_line decode msg raw s).2.
Proof.
  unfold drain_line. destruct (decode raw) as [text| |error]; simpl.
  - destruct (_ && _); [|apply evolves_refl].
    destruct (isCompletionIndicator _); simpl; [|apply accept_line_evolves].
    eapply evolves_trans; [apply accept_line_evolves|].
    by apply evolves_locals.
  - by apply evolves_locals.
  - apply evolves_refl.
Qed.

Lemma drain_evolves (queue : list (list byte)) (s : loop_state) :
  evolves s (drain decode msg queue s).2.
Proof.
  revert s. induction queue as [|raw rest IH]; intros s; simpl.
  - apply evolves_refl.
  - set (s0 := {| temp_buffer := temp_buffer s; shared := set_rx rest (shared s) |}).
    assert (E0 : evolves s s0).
    { split; [by apply world_evolves_other|].
      exists [SerialReadline raw]. split; [done | by repeat constructor]. }
    pose proof (drain_line_evolves raw s0) as E1.
    destruct (drain_line decode msg raw s0) as [[| |error] s1]; simpl in *.
    + eapply evolves_trans; [exact E0|].
      eapply evolves_trans; [exact E1 | apply IH].
    + by eapply evolves_trans.
    + by eapply evolves_trans.
Qed.

Lemma periodic_status_evolves (current_time : Z) (s : loop_state) :
  evolves s (periodic_status msg start_time current_time s).
Proof.
  unfold periodic_status. destruct (_ && _); [|apply evolves_refl].
  match goal with
  | |- context [update_live_terminal_message ?w ?c ?t] =>
      pose proof (update_live_terminal_message_evolves w c t) as [W F];
      destruct (update_live_terminal_message w c t) as [w' acts]
  end.
  simpl in *. split; [exact W|]. eexists. split; [reflexivity|].
  by constructor.
Qed.

Lemma idle_turn_evolves (current_time : Z) (s : loop_state) :
  evolves s (idle_turn current_time s).2.
Proof.
  assert (E : forall n,
             evolves s {| temp_buffer := temp_buffer s; no_data_count := n;
                          last_read_time := last_read_time s;
                          last_update_time := last_update_time s;
                          shared := shared s;
                          done := done s ++ [Sleep 100] |}).
  { intros n. split; [apply world_evolves_refl|].
    exists [Sleep 100]. split; [done | by repeat constructor]. }
  unfold idle_turn. destruct (_ && _); [|apply E].
  destruct (has_completion _); [apply E|].
  destruct (5000 <? _); apply E.
Qed.

Lemma data_turn_evolves (current_time : Z) (queue : list (list byte))
    (s : loop_state) :
  evolves s (data_turn decode msg current_time queue s).2.
Proof.
  unfold data_turn.
  match goal with
  | |- context [drain decode msg queue ?s1] =>
      pose proof (drain_evolves queue s1) as E;
      destruct (drain decode msg queue s1) as [[| |error] s2]
  end; simpl in *.
  - eapply evolves_trans; [by apply evolves_locals|].
    eapply evolves_trans; [exact E | by apply evolves_locals].
  - eapply evolves_trans; [by apply evolves_locals|].
    eapply evolves_trans; [exact E | by apply evolves_locals].
  - eapply evolves_trans; [by apply evolves_locals | exact E].
Qed.

Lemma turn_evolves (p : poll) (s : loop_state) :
  evolves s (turn decode msg start_time p s).2.
Proof.
  unfold turn.
  pose proof (periodic_status_evolves (t_cur p) s) as E1.
  set (s1 := periodic_status msg start_time (t_cur p) s) in *.
  destruct (fault p); [exact E1|].
  set (s2 := {| temp_buffer := temp_buffer s1;
                shared := set_rx (rx (shared s1) ++ arrivals p) (shared s1) |}).
  assert (E2 : evolves s1 s2).
  { split; [by apply world_evolves_other|].
    exists []. by rewrite app_nil_r. }
  destruct (rx (shared s1) ++ arrivals p) as [|raw rest] eqn:Q.
  - eapply evolves_trans; [exact E1|].
    eapply evolves_trans; [exact E2 | apply idle_turn_evolves].
  - eapply evolves_trans; [exact E1|].
    eapply evolves_trans; [exact E2 | apply data_turn_evolves].
Qed.

Lemma read_loop_evolves (ps : list poll) (s : loop_state) :
  evolves s (read_loop decode msg timeout start_time ps s).2.
Proof.
  revert s. induction ps as [|p ps IH]; intros s; simpl.
  - apply evolves_refl.
  - destruct (_ <? timeout); [|apply evolves_refl].
    pose proof (turn_evolves p s) as E.
    destruct (turn decode msg start_time p s) as [[| |error] s1]; simpl in *;
      [|exact E|exact E].
    eapply evolves_trans; [exact E | apply IH].
Qed.

End LoopFacts.

(** ** The early exit of the read loop *)

Section EarlyExit.

Variable decode : list byte -> decoded.
Variable msg : message.
Variable timeout : Z.
Variable start_time : Z.

Lemma periodic_status_locals (current_time : Z) (s : loop_state) :
  let s1 := periodic_status msg start_time current_time s in
  temp_buffer s1 = temp_buffer s /\ no_data_count s1 = no_data_count s /\
  last_read_time s1 = last_read_time s.
Proof.
  unfold periodic_status. destruct (_ && _); [|done].
  by destruct (update_live_terminal_message _ _ _).
Qed.



End EarlyExit.



(** ** What [on_message] tells the sinks *)

Section HandlerFacts.

Variable decode : list byte -> decoded.
Variable msg : message.

Lemma loop_action_not_send (a : action) :
  loop_action a = true -> is_send a = false.
Proof. by destruct a. Qed.

Lemma store_live_buffer_evolves (buffer : list string) (w : world) :
  world_evolves w (store_live_buffer (channel_id msg) buffer w).
Proof.
  repeat split.
  - apply rtc_once, step_store.
  - unfold store_live_buffer. by destruct (has_key _ _).
  - unfold store_live_buffer. by destruct (has_key _ _).
Qed.

Lemma tell_sinks_spec (text : string) (w : world) :
  let r := tell_sinks msg text w in
  world_evolves w r.1 /\
  Forall (fun a => is_send a = false) r.2 /\
  (channel_id msg ∈ terminal_channels w ->
   In (ChannelSend (channel_id msg) text) r.2) /\
  (has_key (live_terminals w) (channel_id msg) = true ->
   In (LiveUpdate (channel_id msg) text) r.2) /\
  (channel_id msg ∈ terminal_channels w \/
   has_key (live_terminals w) (channel_id msg) = true ->
   r.2 <> []).
Proof.
  unfold tell_sinks.
  destruct (has_key (live_terminals w) (channel_id msg)) eqn:Hlive.
  - pose proof (update_live_terminal_message_evolves w (channel_id msg) text)
      as [W F].
    destruct (update_live_terminal_message w (channel_id msg) text)
      as [w1 acts].
    simpl in *.
    split; [exact W|]. split; [|split; [|split]].
    + apply Forall_app. split.
      * destruct (bool_decide _); by repeat constructor.
      * constructor; [done|].
        eapply Forall_impl; [exact F | apply loop_action_not_send].
    + intros Hin. apply in_or_app. left.
      rewrite bool_decide_eq_true_2 by done. by left.
    + intros _. apply in_or_app. right. by left.
    + intros _. by destruct (bool_decide _).
  - simpl. split; [apply world_evolves_refl|]. split; [|split; [|split]].
    + destruct (bool_decide _); by repeat constructor.
    + intros Hin. rewrite bool_decide_eq_true_2 by done. by left.
    + done.
    + intros [Hin|]; [|done]. by rewrite bool_decide_eq_true_2.
Qed.

Lemma final_update_spec (s : loop_state) :
  let r := final_update msg s in
  world_evolves (shared s) r.1 /\
  exists added,
    r.2 = done s ++ added /\ Forall (fun a => is_send a = false) added.
Proof.
  unfold final_update. destruct (temp_buffer s) as [|l ls] eqn:Hb.
  - split; [apply world_evolves_refl|]. exists []. by rewrite app_nil_r.
  - destruct (has_key (live_terminals (shared s)) (channel_id msg)).
    + match goal with
      | |- context [update_live_terminal_message ?w ?c ?t] =>
          pose proof (update_live_terminal_message_evolves w c t) as [W F];
          destruct (update_live_terminal_message w c t) as [w2 acts]
      end.
      simpl in *. split.
      * eapply world_evolves_trans; [apply store_live_buffer_evolves | exact W].
      * eexists. split; [reflexivity|]. apply Forall_app. split.
        -- destruct (bool_decide _); by repeat constructor.
        -- constructor; [done|].
           eapply Forall_impl; [exact F | apply loop_action_not_send].
    + simpl. split; [apply world_evolves_refl|].
      eexists. split; [reflexivity|].
      destruct (bool_decide _); by repeat constructor.
Qed.

Lemma start_exchange_spec (w : world) (sc : script) :
  let r := start_exchange w msg sc in
  world_evolves w r.1.2 /\
  match r.1.1 with
  | Some error =>
      r.1.2 = w /\
      (r.2 = [] \/ r.2 = [SerialWrite (content msg +:+ Py.crlf)] \/
       r.2 = [SerialWrite (content msg +:+ Py.crlf); SerialFlush])
  | None =>
      exists echo,
        r.2 = [SerialWrite (content msg +:+ Py.crlf); SerialFlush;
               SerialReadline echo]
  end.
Proof.
  unfold start_exchange. destruct (start_fault sc) as [[[] error]|]; simpl.
  - split; [apply world_evolves_refl | auto].
  - split; [apply world_evolves_refl | auto].
  - split; [apply world_evolves_refl | auto].
  - unfold readline. simpl. destruct (rx w ++ echo_arrivals sc) as [|raw rest];
      simpl; (split; [by apply world_evolves_other | by eexists]).
Qed.

End HandlerFacts.

(** The ways through [on_message]. *)
Lemma on_message_inv (decode : list byte -> decoded) (w w' : world)
    (msg : message) (sc : script) (out : outcome) (acts : list action) :
  on_message decode w msg sc = (out, w', acts) ->
  let ch := channel_id msg in
  let written := SerialWrite (content msg +:+ Py.crlf) in
  let registered :=
    ch ∈ terminal_channels w \/ has_key (live_terminals w) ch = true in
  (out = Ignored /\ w' = w /\ acts = [])
  \/ (out = NotConnected /\ registered /\
      tell_sinks msg "Not connected to serial device" w = (w', acts))
  \/ (exists error sent told,
        out = Ended (Raised error) /\ registered /\
        (sent = [] \/ sent = [written] \/ sent = [written; SerialFlush]) /\
        tell_sinks msg ("Error: " +:+ error) w = (w', told) /\
        acts = sent ++ told)
  \/ (exists echo added s how,
        world_evolves w (shared s) /\
        done s = [written; SerialFlush; SerialReadline echo] ++ added /\
        added <> [] /\
        Forall (fun a => loop_action a = true) added /\
        match how with
        | Raised error =>
            out = Ended (Raised error) /\
            exists told,
              tell_sinks msg ("Error: " +:+ error) (shared s) = (w', told) /\
              acts = done s ++ told
        | Polling => out = Ended Polling /\ w' = shared s /\ acts = done s
        | _ => out = Ended how /\ final_update msg s = (w', acts)
        end).
Proof.
  intros H ch written registered. unfold on_message in H. fold ch in H.
  destruct (author_bot msg); [left; by injection H as <- <- <-|].
  destruct (bool_decide (ch ∈ terminal_channels w) || has_key (live_terminals w) ch)
    eqn:Hreg; cbn [negb] in H; [|left; by injection H as <- <- <-].
  assert (R : registered).
  { apply orb_true_iff in Hreg as [Hreg|Hreg]; [left | by right].
    by apply bool_decide_eq_true_1 in Hreg. }
  destruct (Py.startswith "/" (content msg)); [left; by injection H as <- <- <-|].
  destruct (serial_open w); cbn [negb] in H.
  2:{ right; left.
      destruct (tell_sinks msg "Not connected to serial device" w) as [w1 a1].
      by injection H as <- <- <-. }
  right; right.
  pose proof (start_exchange_spec msg w sc) as [W1 Hstart].
  destruct (start_exchange w msg sc) as [[[error|] w1] sent]; cbn [fst snd] in *.
  - left. destruct Hstart as [-> Hsent].
    destruct (tell_sinks msg ("Error: " +:+ error) w) as [w2 told] eqn:Htold.
    injection H as <- <- <-. by exists error, sent, told.
  - right. destruct Hstart as [echo ->].
    set (first := if has_key (live_terminals w1) ch then _ else _) in H.
    assert (W2 : world_evolves w1 first.1 /\
                 Forall (fun a => loop_action a = true) first.2).
    { unfold first. clear first H.
      destruct (has_key (live_terminals w1) ch);
        [|split; [apply world_evolves_refl | done]].
      match goal with
      | |- context [update_live_terminal_message ?w ?c ?t] =>
          pose proof (update_live_terminal_message_evolves w c t) as [W F];
          destruct (update_live_terminal_message w c t) as [w2 edits]
      end.
      cbn [fst snd] in *. split; [exact W | by constructor]. }
    destruct first as [w2 acts2]. destruct W2 as [W2 F2]. cbn [fst snd] in *.
    match type of H with
    | context [read_loop decode msg ?t ?st ?ps ?s0] =>
        pose proof (read_loop_evolves decode msg t st ps s0) as [W3 (added & D & F)];
        destruct (read_loop decode msg t st ps s0) as [how s]
    end.
    cbn [fst snd shared done] in *.
    exists echo, (acts2 ++ [Sleep 500] ++ added), s, how.
    split; [|split; [|split; [|split]]].
    + eapply world_evolves_trans; [exact W1|].
      eapply world_evolves_trans; [exact W2 | exact W3].
    + rewrite D. simpl. by rewrite <- !app_assoc.
    + by destruct acts2.
    + apply Forall_app. split; [exact F2|]. by constructor.
    + destruct how as [| |error|].
      * by destruct (final_update msg s) as [w3 a3]; injection H as <- <- <-.
      * by destruct (final_update msg s) as [w3 a3]; injection H as <- <- <-.
      * destruct (tell_sinks msg ("Error: " +:+ error) (shared s)) as [w3 told].
        injection H as <- <- <-. split; [done|]. by exists told.
      * by injection H as <- <- <-.
Qed.

Lemma world_evolves_live (w w' : world) (channel_id : Z) :
  world_evolves w w' ->
  has_key (live_terminals w') channel_id = true ->
  has_key (live_terminals w) channel_id = true.
Proof.
  intros (_ & _ & Hsub). rewrite !has_key_dom. apply Hsub.
Qed.

(** [on_message] changes the shared state by the steps of [cog_step]. *)
Lemma on_message_evolves (decode : list byte -> decoded) (w : world)
    (msg : message) (sc : script) :
  world_evolves w (on_message decode w msg sc).1.2.
Proof.
  destruct (on_message decode w msg sc) as [[out w'] acts] eqn:H.
  apply on_message_inv in H. cbn [fst snd].
  destruct H as [(_ & -> & _) | [(_ & _ & H) | [H | H]]].
  - apply world_evolves_refl.
  - pose proof (tell_sinks_spec msg "Not connected to serial device" w) as [W _].
    by rewrite H in W.
  - destruct H as (error & sent & told & _ & _ & _ & H & _).
    pose proof (tell_sinks_spec msg ("Error: " +:+ error) w) as [W _].
    by rewrite H in W.
  - destruct H as (echo & added & s & how & W & _ & _ & _ & H).
    eapply world_evolves_trans; [exact W|].
    destruct how as [| |error|].
    + destruct H as [_ H]. pose proof (final_update_spec msg s) as [W' _].
      by rewrite H in W'.
    + destruct H as [_ H]. pose proof (final_update_spec msg s) as [W' _].
      by rewrite H in W'.
    + destruct H as (_ & told & H & _).
      pose proof (tell_sinks_spec msg ("Error: " +:+ error) (shared s)) as [W' _].
      by rewrite H in W'.
    + destruct H as (_ & -> & _). apply world_evolves_refl.
Qed.

(** C9, as the handler does it: a message that arrives while the serial
    connection is closed, and a session that ends by an exception, are
    answered on the plain terminal of the channel by a new message and on
    its live terminal by an update, with the text [Not connected to serial
    device] or [Error: ] and the text of the exception; the final update of
    a session whose buffer is empty does nothing, so a session that only
    reaches its timeout without a line is not answered. *)
Theorem failures_reported (decode : list byte -> decoded) (w w' : world)
    (msg : message) (sc : script) (out : outcome) (acts : list action) :
  on_message decode w msg sc = (out, w', acts) ->
  let ch := channel_id msg in
  (out = NotConnected ->
   (ch ∈ terminal_channels w ->
    In (ChannelSend ch "Not connected to serial device") acts) /\
   (has_key (live_terminals w) ch = true ->
    In (LiveUpdate ch "Not connected to serial device") acts)) /\
  (forall error, out = Ended (Raised error) ->
   (ch ∈ terminal_channels w ->
    In (ChannelSend ch ("Error: " +:+ error)) acts) /\
   (has_key (live_terminals w') ch = true ->
    In (LiveUpdate ch ("Error: " +:+ error)) acts)) /\
  (forall s, temp_buffer s = [] -> final_update msg s = (shared s, done s)).
Proof.
  intros H ch. apply on_message_inv in H. split; [|split].
  - intros ->.
    destruct H as [(? & _) | [(_ & _ & H) | [H | H]]]; [done| |exfalso..].
    + pose proof (tell_sinks_spec msg "Not connected to serial device" w)
        as (_ & _ & P & L & _).
      rewrite H in P, L. done.
    + by destruct H as (? & ? & ? & ? & _).
    + destruct H as (? & ? & ? & [| |?|] & _ & _ & _ & _ & H);
        by destruct H as [? _].
  - intros error ->.
    destruct H as [(? & _) | [(? & _) | [H | H]]]; [done|done| |].
    + destruct H as (e & sent & told & [= <-] & _ & _ & H & ->).
      pose proof (tell_sinks_spec msg ("Error: " +:+ error) w)
        as (W & _ & P & L & _).
      rewrite H in W, P, L. cbn [fst snd] in *. split.
      * intros Hin. apply in_or_app. right. by apply P.
      * intros Hlive. apply in_or_app. right.
        apply L. by eapply world_evolves_live.
    + destruct H as (echo & added & s & how & (_ & T & _) & _ & _ & _ & H).
      destruct how as [| |e|]; try (by destruct H as [? _]).
      destruct H as ([= <-] & told & H & ->).
      pose proof (tell_sinks_spec msg ("Error: " +:+ error) (shared s))
        as (W & _ & P & L & _).
      rewrite H in W, P, L. cbn [fst snd] in *. split.
      * intros Hin. apply in_or_app. right. apply P. by rewrite T.
      * intros Hlive. apply in_or_app. right.
        apply L. by eapply world_evolves_live.
  - intros s Hs. unfold final_update. by rewrite Hs.
Qed.

Lemma failures_reported_witness :
  exists w' acts,
    on_message decode_ascii_strict live_world AT unplugged_device =
      (Ended (Raised "device disconnected"), w', acts) /\
    In (ChannelSend 7 "Error: device disconnected") acts /\
    In (LiveUpdate 7 "Error: device disconnected") acts.
Proof.
  eexists _, _. split; [vm_compute; reflexivity|].
  destruct (failures_reported decode_ascii_strict live_world _ AT
              unplugged_device _ _ ltac:(vm_compute; reflexivity))
    as (_ & H & _).
  destruct (H "device disconnected" eq_refl) as [P L]. split.
  - apply P. change (7 ∈ ({[7]} : gset Z)). by apply elem_of_singleton_2.
  - apply L. vm_compute. reflexivity.
Defined.

(** C9, as the specification states it, fails: on a plain terminal, a
    session to which the device sends nothing ends at its timeout and no
    message is sent to the channel. *)
Lemma silent_timeout_not_reported : ~ timeout_reported.
Proof.
  intros H.
  destruct (H decode_ascii_strict plain_world _ AT silent_device _
              ltac:(vm_compute; reflexivity)) as [text Hin].
  - change (7 ∈ ({[7]} : gset Z)). by apply elem_of_singleton_2.
  - match type of Hin with
    | In _ ?l =>
        assert (F : forallb (fun a => negb (is_channel_send a)) l = true)
          by (vm_compute; reflexivity)
    end.
    rewrite forallb_forall in F. specialize (F _ Hin). discriminate.
Qed.

(** ** Sessions of several messages *)

Lemma is_await_not_send (a : action) : is_await a = true -> is_send a = false.
Proof. by destruct a. Qed.

Lemma segments_nil (acts : list action) : segments acts = [] -> acts = [].
Proof.
  destruct acts as [|a rest]; [done|]. simpl.
  destruct (is_await a); [done|]. by destruct (segments rest).
Qed.

Lemma segments_nonempty (acts : list action) :
  Forall (fun seg => seg <> []) (segments acts).
Proof.
  induction acts as [|a rest IH]; simpl; [constructor|].
  destruct (is_await a); [by constructor|].
  destruct (segments rest) as [|seg segs]; [by repeat constructor|].
  inversion IH; subst. by constructor.
Qed.

(** In the segments of a handler whose last action is no send, no segment
    ends with a send. *)
Lemma segments_send_not_last (acts : list action) :
  send_not_last acts -> Forall send_not_last (segments acts).
Proof.
  induction acts as [|a rest IH]; intros Hlast; simpl; [constructor|].
  assert (Hrest : rest <> [] -> send_not_last rest).
  { intros _ before x ->. apply (Hlast (a :: before) x). done. }
  destruct (is_await a) eqn:Ha.
  - constructor.
    + intros before x E. destruct before as [|y before].
      * injection E as <-. by apply is_await_not_send.
      * injection E as _ E. by destruct before.
    + destruct rest as [|b rest']; [constructor|]. by apply IH, Hrest.
  - pose proof (segments_nonempty rest) as Hne.
    destruct (segments rest) as [|seg segs] eqn:Hsegs.
    + apply segments_nil in Hsegs as ->. constructor; [|constructor].
      exact Hlast.
    + assert (Hr : rest <> []) by (intros ->; discriminate).
      specialize (IH (Hrest Hr)). inversion IH as [|? ? Hseg Hsegs']; subst.
      inversion Hne as [|? ? Hseg_ne _]; subst.
      constructor; [|exact Hsegs'].
      intros before x E. destruct before as [|y before].
      * injection E as _ E. done.
      * injection E as _ E. by apply (Hseg before x).
Qed.

(** A list that ends with a non-empty run of actions that are no sends does
    not end with a send. *)
Lemma send_not_last_tail (front back : list action) :
  back <> [] -> Forall (fun a => is_send a = false) back ->
  send_not_last (front ++ back).
Proof.
  intros Hne Hall before a E.
  destruct (exists_last Hne) as (back' & x & ->).
  rewrite app_assoc in E. apply app_inj_tail in E as [_ ->].
  apply Forall_app in Hall as [_ Hx]. by inversion Hx.
Qed.

Lemma on_message_send_not_last (decode : list byte -> decoded) (w : world)
    (msg : message) (sc : script) :
  send_not_last (on_message decode w msg sc).2.
Proof.
  destruct (on_message decode w msg sc) as [[out w'] acts] eqn:H.
  apply on_message_inv in H. cbn [snd].
  destruct H as [(_ & _ & ->) | [(_ & R & H) | [H | H]]].
  - intros before a E. by destruct before.
  - pose proof (tell_sinks_spec msg "Not connected to serial device" w)
      as (_ & F & _ & _ & N).
    rewrite H in F, N. cbn [snd] in *.
    apply (send_not_last_tail [] acts); [by apply N | exact F].
  - destruct H as (error & sent & told & _ & R & _ & H & ->).
    pose proof (tell_sinks_spec msg ("Error: " +:+ error) w)
      as (_ & F & _ & _ & N).
    rewrite H in F, N. cbn [snd] in *.
    apply send_not_last_tail; [by apply N | exact F].
  - destruct H as (echo & added & s & how & _ & D & Hne & F & H).
    assert (F' : Forall (fun a => is_send a = false) added).
    { eapply Forall_impl; [exact F | apply loop_action_not_send]. }
    assert (G : forall more,
               Forall (fun a => is_send a = false) more ->
               send_not_last (done s ++ more)).
    { intros more Hmore. rewrite D, <- app_assoc.
      apply send_not_last_tail; [by destruct added | by apply Forall_app]. }
    destruct how as [| |error|].
    + destruct H as [_ H]. pose proof (final_update_spec msg s) as [_ (m & E & Fm)].
      rewrite H in E. cbn [snd] in E. rewrite E. by apply G.
    + destruct H as [_ H]. pose proof (final_update_spec msg s) as [_ (m & E & Fm)].
      rewrite H in E. cbn [snd] in E. rewrite E. by apply G.
    + destruct H as (_ & told & H & ->).
      pose proof (tell_sinks_spec msg ("Error: " +:+ error) (shared s))
        as (_ & Ft & _).
      rewrite H in Ft. by apply G.
    + destruct H as (_ & _ & ->). rewrite <- (app_nil_r (done s)). by apply G.
Qed.

(** The event loop never runs another task right after a send, when no
    segment of a task ends with a send. *)
Lemma run_schedule_send (tasks : list (list (list action)))
    (schedule : list nat) (l1 l2 : list (nat * action)) (i j : nat)
    (a b : action) :
  Forall (Forall send_not_last) tasks ->
  run_schedule tasks schedule = l1 ++ (i, a) :: (j, b) :: l2 ->
  is_send a = true -> j = i.
Proof.
  intros Htasks E Ha. revert tasks l1 Htasks E.
  induction schedule as [|k schedule IH]; intros tasks l1 Htasks E; simpl in E.
  - by destruct l1.
  - destruct (tasks !! k) as [[|seg rest]|] eqn:Hk;
      [by eapply IH | | by eapply IH].
    assert (Hsegs : Forall send_not_last (seg :: rest)).
    { eapply Forall_lookup_1 in Htasks; [exact Htasks | exact Hk]. }
    inversion Hsegs as [|? ? Hseg Hrest]; subst.
    assert (Htasks' : Forall (Forall send_not_last) (<[k := rest]> tasks)).
    { by apply Forall_insert. }
    assert (Htag : Forall (fun x => x.1 = k) (map (pair k) seg)).
    { apply Forall_forall. intros x Hx. apply list_elem_of_In, in_map_iff in Hx.
      by destruct Hx as (y & <- & _). }
    apply app_eq_app in E as [l [[E1 E2] | [E1 E2]]].
    + destruct l as [|u [|v l]].
      * rewrite app_nil_r in E1. simpl in E2. symmetry in E2.
        by apply (IH _ [] Htasks').
      * exfalso. injection E2 as <- E2.
        apply (f_equal (map snd)) in E1.
        rewrite map_map, map_id, map_app in E1. simpl in E1.
        specialize (Hseg _ _ E1). congruence.
      * injection E2 as <- <- _. rewrite E1 in Htag.
        apply Forall_app in Htag as [_ Htag].
        inversion Htag as [|? ? Hi Htag']; subst.
        inversion Htag' as [|? ? Hj _]; subst. simpl in *. congruence.
    + by apply (IH _ l Htasks').
Qed.

(** C1, as the handlers do it: there is no queue, the handler of every
    message starts its session when the event loop runs it; what holds is
    that the write and the flush of a command are never followed by an
    action of another handler, since no await separates the write, the flush
    and the read of the echo. *)
Theorem send_is_atomic (decode : list byte -> decoded) (w : world)
    (jobs : list (message * script)) (schedule : list nat)
    (l1 l2 : list (nat * action)) (i j : nat) (a b : action) :
  run_schedule (map (session_task decode w) jobs) schedule
    = l1 ++ (i, a) :: (j, b) :: l2 ->
  is_send a = true ->
  j = i.
Proof.
  apply run_schedule_send.
  apply Forall_forall. intros task Hin.
  apply list_elem_of_In, in_map_iff in Hin as ([msg sc] & <- & _).
  apply segments_send_not_last, on_message_send_not_last.
Qed.

Lemma send_is_atomic_witness :
  let l1 := [(0%nat, SerialWrite ("AT" +:+ Py.crlf)); (0%nat, SerialFlush);
             (0%nat, SerialReadline (text_line "AT")); (0%nat, Sleep 500)] in
  let l2 := [(1%nat, SerialReadline (text_line "OK")); (1%nat, Sleep 500);
             (0%nat, SerialReadline (text_line "AT+GMR"));
             (0%nat, SerialReadline (text_line "AT version:1.2.0.0"));
             (0%nat, SerialReadline (text_line "OK"))] in
  run_schedule (map (session_task decode_ascii_strict plain_world)
                    two_commands) [0; 1; 0]%nat
    = l1 ++ (1%nat, SerialWrite ("AT+GMR" +:+ Py.crlf))
         :: (1%nat, SerialFlush) :: l2 /\
  is_send (SerialWrite ("AT+GMR" +:+ Py.crlf)) = true /\
  (1 = 1)%nat.
Proof.
  intros l1 l2.
  assert (E : run_schedule (map (session_task decode_ascii_strict plain_world)
                                two_commands) [0; 1; 0]%nat
              = l1 ++ (1%nat, SerialWrite ("AT+GMR" +:+ Py.crlf))
                   :: (1%nat, SerialFlush) :: l2).
  { vm_compute. reflexivity. }
  split; [exact E|]. split; [reflexivity|].
  exact (send_is_atomic _ _ _ _ _ _ _ _ _ _ E eq_refl).
Defined.

(** C1, as the specification states it, fails: the handler of a second
    command writes to the transport while the handler of the first one
    sleeps after its echo, and the first handler reads from the transport
    afterwards. *)
Lemma sessions_interleave : ~ single_flight.
Proof.
  intros H.
  specialize (H decode_ascii_strict plain_world two_commands [0; 1; 0]%nat).
  assert (E : (0 = 1)%nat); [|discriminate].
  apply (H 0%nat 1%nat
           (SerialWrite ("AT" +:+ Py.crlf))
           (SerialWrite ("AT+GMR" +:+ Py.crlf))
           (SerialReadline (text_line "AT+GMR"))
           []
           [(0%nat, SerialFlush); (0%nat, SerialReadline (text_line "AT"));
            (0%nat, Sleep 500)]
           [(1%nat, SerialFlush); (1%nat, SerialReadline (text_line "OK"));
            (1%nat, Sleep 500)]
           [(0%nat, SerialReadline (text_line "AT version:1.2.0.0"));
            (0%nat, SerialReadline (text_line "OK"))]);
    [vm_compute; reflexivity | done..].
Qed.

(** * Properties of the rest of the cog *)

(** ** Which messages start a session *)

Lemma on_message_ignored_iff (decode : list byte -> decoded) (w : world)
    (msg : message) (sc : script) :
  (on_message decode w msg sc).1.1 = Ignored <->
  author_bot msg = true \/
  ((channel_id msg ∉ terminal_channels w) /\
   has_key (live_terminals w) (channel_id msg) = false) \/
  Py.startswith "/" (content msg) = true.
Proof.
  unfold on_message.
  destruct (author_bot msg); [split; [by left | done]|].
  destruct (bool_decide (channel_id msg ∈ terminal_channels w)) eqn:Hp.
  - apply bool_decide_eq_true_1 in Hp. cbn [orb negb].
    destruct (Py.startswith "/" (content msg));
      [split; [by right; right | done]|].
    split; [|by intros [|[[]|]]].
    destruct (negb (serial_open w)).
    + by destruct (tell_sinks _ _ _).
    + destruct (start_exchange _ _ _) as [[[e|] w1] a1].
      * by destruct (tell_sinks _ _ _).
      * destruct (if has_key (live_terminals w1) (channel_id msg) then _ else _)
          as [w2 a2].
        destruct (read_loop _ _ _ _ _ _) as [[| |e|] s]; cbn [fst];
          try done; by destruct (_ : world * list action).
  - apply bool_decide_eq_false_1 in Hp. cbn [orb].
    destruct (has_key (live_terminals w) (channel_id msg)) eqn:Hl; cbn [negb].
    2:{ split; [intros _; by right; left | done]. }
    destruct (Py.startswith "/" (content msg));
      [split; [by right; right | done]|].
    split; [|by intros [|[[]|]]].
    destruct (negb (serial_open w)).
    + by destruct (tell_sinks _ _ _).
    + destruct (start_exchange _ _ _) as [[[e|] w1] a1].
      * by destruct (tell_sinks _ _ _).
      * destruct (if has_key (live_terminals w1) (channel_id msg) then _ else _)
          as [w2 a2].
        destruct (read_loop _ _ _ _ _ _) as [[| |e|] s]; cbn [fst];
          try done; by destruct (_ : world * list action).
Qed.

(** X1: [on_message] ignores a message exactly when its author is a bot, or
    its channel is neither a plain nor a live terminal, or its text starts
    with a slash; an ignored message changes nothing and does nothing. *)
Theorem ignored_messages (decode : list byte -> decoded) (w : world)
    (msg : message) (sc : script) :
  ((on_message decode w msg sc).1.1 = Ignored <->
   author_bot msg = true \/
   ((channel_id msg ∉ terminal_channels w) /\
    has_key (live_terminals w) (channel_id msg) = false) \/
   Py.startswith "/" (content msg) = true) /\
  ((on_message decode w msg sc).1.1 = Ignored ->
   on_message decode w msg sc = (Ignored, w, [])).
Proof.
  split; [apply on_message_ignored_iff|].
  destruct (on_message decode w msg sc) as [[out w'] acts] eqn:H.
  cbn [fst]. intros ->. apply on_message_inv in H.
  destruct H as [(_ & -> & ->) | [(? & _) | [H | H]]]; [done | done | |].
  - by destruct H as (? & ? & ? & ? & _).
  - destruct H as (? & ? & ? & [| |?|] & _ & _ & _ & _ & H); by destruct H.
Qed.

(** ** What a session does on the serial connection *)

Lemma update_live_terminal_message_frame (w : world) (channel_id : Z)
    (content : string) :
  let r := update_live_terminal_message w channel_id content in
  serial_open r.1 = serial_open w /\ rx r.1 = rx w /\
  terminal_channels r.1 = terminal_channels w /\
  channels r.1 = channels w /\
  Forall (fun a => is_transport a = false) r.2.
Proof.
  unfold update_live_terminal_message.
  destruct (negb (bool_decide _)); [by repeat split|].
  destruct (live_terminals w !! channel_id) as [mid|]; [|by repeat split].
  destruct (messages w !! mid) as [text|].
  - destruct (negb (String.eqb _ content)); repeat split; by repeat constructor.
  - unfold remove_invalid_terminal, unregister_live, py_del.
    destruct (has_key _ _); [|by repeat split].
    destruct (live_terminals w !! channel_id); [|by repeat split].
    by destruct (live_buffers w !! channel_id).
Qed.

Lemma tell_sinks_frame (msg : message) (text : string) (w : world) :
  let r := tell_sinks msg text w in
  serial_open r.1 = serial_open w /\ rx r.1 = rx w /\
  Forall (fun a => is_transport a = false) r.2.
Proof.
  unfold tell_sinks. destruct (has_key _ _).
  - pose proof (update_live_terminal_message_frame w (channel_id msg) text)
      as (O & R & _ & _ & F).
    destruct (update_live_terminal_message w (channel_id msg) text) as [w1 a].
    cbn [fst snd] in *. repeat split; try done.
    apply Forall_app. split; [destruct (bool_decide _); by repeat constructor|].
    by constructor.
  - cbn [fst snd]. repeat split.
    destruct (bool_decide _); by repeat constructor.
Qed.

(** X2: while the serial connection is closed, [on_message] does nothing on
    the serial connection: no write, no flush, no read, and the input buffer
    of the device is left as it is. *)
Theorem closed_connection_untouched (decode : list byte -> decoded)
    (w : world) (msg : message) (sc : script) :
  serial_open w = false ->
  let r := on_message decode w msg sc in
  (r.1.1 = Ignored \/ r.1.1 = NotConnected) /\
  serial_open r.1.2 = false /\ rx r.1.2 = rx w /\
  Forall (fun a => is_transport a = false) r.2.
Proof.
  intros Hclosed. unfold on_message.
  destruct (author_bot msg); [by repeat split; auto|].
  destruct (negb (_ || _)); [by repeat split; auto|].
  destruct (Py.startswith "/" (content msg)); [by repeat split; auto|].
  rewrite Hclosed. cbn [negb].
  pose proof (tell_sinks_frame msg "Not connected to serial device" w)
    as (O & R & F).
  destruct (tell_sinks msg "Not connected to serial device" w) as [w1 a1].
  cbn [fst snd] in *. repeat split; auto. congruence.
Qed.

Lemma closed_connection_untouched_witness :
  let w := set_rx [text_line "junk"]
             (fst (toggle_live_terminal
                     {| serial_open := false; rx := [];
                        terminal_channels := {[7]}; live_terminals := ∅;
                        live_buffers := ∅; channels := {[7]}; messages := ∅;
                        next_message_id := 100 |} 7)).1 in
  let r := on_message decode_ascii_strict w AT silent_device in
  r.1.1 = NotConnected /\ rx r.1.2 = [text_line "junk"] /\
  Forall (fun a => is_transport a = false) r.2.
Proof.
  intros w r.
  destruct (closed_connection_untouched decode_ascii_strict w AT silent_device
              eq_refl) as (_ & _ & R & F).
  split; [reflexivity|]. split; [exact R | exact F].
Defined.

Lemma not_send_not_write (a : action) : is_send a = false -> is_write a = false.
Proof. by destruct a. Qed.

(** X3: a message makes at most one write to the serial connection; the
    write, when there is one, is the first action of the handler and sends
    the text of the message as it was typed, followed by CR LF. *)
Theorem command_written_once (decode : list byte -> decoded) (w : world)
    (msg : message) (sc : script) :
  exists rest,
    ((on_message decode w msg sc).2 = rest \/
     (on_message decode w msg sc).2
       = SerialWrite (content msg +:+ Py.crlf) :: rest) /\
    Forall (fun a => is_write a = false) rest.
Proof.
  destruct (on_message decode w msg sc) as [[out w'] acts] eqn:H.
  apply on_message_inv in H. cbn [snd].
  assert (T : forall text w0,
             Forall (fun a => is_write a = false) (tell_sinks msg text w0).2).
  { intros text w0. pose proof (tell_sinks_spec msg text w0) as (_ & F & _).
    eapply Forall_impl; [exact F | apply not_send_not_write]. }
  destruct H as [(_ & _ & ->) | [(_ & _ & H) | [H | H]]].
  - exists []. split; [by left | constructor].
  - exists acts. split; [by left|].
    specialize (T "Not connected to serial device" w). by rewrite H in T.
  - destruct H as (error & sent & told & _ & _ & Hsent & H & ->).
    specialize (T ("Error: " +:+ error) w). rewrite H in T. cbn [snd] in T.
    destruct Hsent as [-> | [-> | ->]].
    + exists told. split; [by left | done].
    + exists told. split; [by right | done].
    + exists (SerialFlush :: told). split; [by right | by constructor].
  - destruct H as (echo & added & s & how & _ & D & _ & F & H).
    assert (F' : Forall (fun a => is_write a = false) added).
    { eapply Forall_impl; [exact F|]. intros a Ha.
      by apply not_send_not_write, loop_action_not_send. }
    assert (G : forall more,
               Forall (fun a => is_write a = false) more ->
               exists rest,
                 (done s ++ more = rest \/
                  done s ++ more
                    = SerialWrite (content msg +:+ Py.crlf) :: rest) /\
                 Forall (fun a => is_write a = false) rest).
    { intros more Hmore. rewrite D.
      exists ([SerialFlush; SerialReadline echo] ++ added ++ more).
      split; [right; by rewrite <- app_assoc|].
      repeat constructor. by apply Forall_app. }
    destruct how as [| |error|].
    + destruct H as [_ H]. pose proof (final_update_spec msg s) as [_ (m & E & Fm)].
      rewrite H in E. cbn [snd] in E. rewrite E. apply G.
      eapply Forall_impl; [exact Fm | apply not_send_not_write].
    + destruct H as [_ H]. pose proof (final_update_spec msg s) as [_ (m & E & Fm)].
      rewrite H in E. cbn [snd] in E. rewrite E. apply G.
      eapply Forall_impl; [exact Fm | apply not_send_not_write].
    + destruct H as (_ & told & H & ->). apply G.
      specialize (T ("Error: " +:+ error) (shared s)). by rewrite H in T.
    + destruct H as (_ & _ & ->). rewrite <- (app_nil_r (done s)). by apply G.
Qed.

(** ** The buffer of a session *)

Lemma buffer_grows_refl (s : loop_state) : buffer_grows s s.
Proof. exists []. by rewrite app_nil_r. Qed.

Lemma buffer_grows_trans (s1 s2 s3 : loop_state) :
  buffer_grows s1 s2 -> buffer_grows s2 s3 -> buffer_grows s1 s3.
Proof.
  intros (a1 & E1 & F1) (a2 & E2 & F2). exists (a1 ++ a2). split.
  - by rewrite E2, E1, app_assoc.
  - by apply Forall_app.
Qed.

Lemma buffer_grows_same (s s' : loop_state) :
  temp_buffer s' = temp_buffer s -> buffer_grows s s'.
Proof. intros E. exists []. by rewrite app_nil_r. Qed.

Section BufferFacts.

Variable decode : list byte -> decoded.
Variable msg : message.
Variable timeout : Z.
Variable start_time : Z.

Lemma accept_line_buffer (response : string) (s : loop_state) :
  temp_buffer (accept_line msg response s) = temp_buffer s ++ [response].
Proof.
  unfold accept_line. destruct (has_key _ _); [|done].
  by destruct (update_live_terminal_message _ _ _).
Qed.

Lemma drain_line_buffer (raw : list byte) (s : loop_state) :
  buffer_grows s (drain_line decode msg raw s).2.
Proof.
  unfold drain_line. destruct (decode raw) as [text| |error]; cbn [snd].
  - destruct (String.eqb (Py.strip text) "") eqn:E; cbn [negb andb];
      [apply buffer_grows_refl|].
    apply String.eqb_neq in E.
    destruct (negb _); [|apply buffer_grows_refl].
    exists [Py.strip text]. split; [|by repeat constructor].
    destruct (isCompletionIndicator _); cbn [snd temp_buffer];
      apply accept_line_buffer.
  - exists [hex_response raw]. split; [done|]. by repeat constructor.
  - apply buffer_grows_refl.
Qed.

Lemma drain_buffer (queue : list (list byte)) (s : loop_state) :
  buffer_grows s (drain decode msg queue s).2.
Proof.
  revert s. induction queue as [|raw rest IH]; intros s; simpl.
  - apply buffer_grows_refl.
  - match goal with
    | |- context [drain_line decode msg raw ?s0] =>
        pose proof (drain_line_buffer raw s0) as E;
        destruct (drain_line decode msg raw s0) as [[| |error] s1]
    end; cbn [snd] in *; [|exact E..].
    eapply buffer_grows_trans; [exact E | apply IH].
Qed.

Lemma turn_buffer (p : poll) (s : loop_state) :
  buffer_grows s (turn decode msg start_time p s).2.
Proof.
  unfold turn.
  destruct (periodic_status_locals msg start_time (t_cur p) s) as (Hb & _).
  set (s1 := periodic_status msg start_time (t_cur p) s) in *.
  destruct (fault p); [by apply buffer_grows_same|].
  destruct (rx (shared s1) ++ arrivals p) as [|raw rest].
  - apply buffer_grows_same. unfold idle_turn. cbn [temp_buffer].
    destruct (_ && _); [|done]. destruct (has_completion _); [done|].
    by destruct (5000 <? _).
  - unfold data_turn.
    match goal with
    | |- context [drain decode msg ?q ?s0] =>
        pose proof (drain_buffer q s0) as E;
        destruct (drain decode msg q s0) as [[| |error] s2]
    end; cbn [snd temp_buffer] in *;
      destruct E as (added & E & F); exists added; by rewrite E, Hb.
Qed.

Lemma read_loop_buffer (ps : list poll) (s : loop_state) :
  buffer_grows s (read_loop decode msg timeout start_time ps s).2.
Proof.
  revert s. induction ps as [|p ps IH]; intros s; simpl.
  - apply buffer_grows_refl.
  - destruct (_ <? timeout); [|apply buffer_grows_refl].
    pose proof (turn_buffer p s) as E.
    destruct (turn decode msg start_time p s) as [[| |error] s1];
      cbn [snd] in *; [|exact E..].
    eapply buffer_grows_trans; [exact E | apply IH].
Qed.

(** X5: the read loop only adds lines at the end of the buffer of the
    session: no line is removed or moved, and no empty line is added. So a
    completion indicator that is in the buffer stays in it. *)
Theorem buffer_only_grows (ps : list poll) (s : loop_state) :
  let s' := (read_loop decode msg timeout start_time ps s).2 in
  (exists added,
     temp_buffer s' = temp_buffer s ++ added /\
     Forall (fun line => line <> "") added) /\
  (has_completion (temp_buffer s) = true ->
   has_completion (temp_buffer s') = true).
Proof.
  intros s'. pose proof (read_loop_buffer ps s) as (added & E & F).
  fold s' in E. split; [by exists added|].
  rewrite E. unfold has_completion. rewrite !existsb_exists.
  intros (status & Hin & H). exists status. split; [done|].
  apply in_list_spec. apply in_list_spec in H. apply in_or_app. by left.
Qed.

End BufferFacts.

(** ** Properties of the shared state that the handlers keep *)

Section Preserved.

(** A property of the shared state that is kept by a change of the input
    buffer, by a change of the messages, by the removal of an invalid
    terminal and by the store of the last twenty lines of a buffer. *)
Variable P : world -> Prop.
Hypothesis P_rx : forall q w, P w -> P (set_rx q w).
Hypothesis P_messages : forall m n w, P w -> P (set_messages m n w).
Hypothesis P_remove : forall c w, P w -> P (remove_invalid_terminal c w).
Hypothesis P_store :
  forall c (lines : list string) w,
    P w -> P (store_live_buffer c (Py.last_n 20 lines) w).

Variable decode : list byte -> decoded.
Variable msg : message.

Lemma update_live_terminal_message_keeps (w : world) (c : Z) (text : string) :
  P w -> P (update_live_terminal_message w c text).1.
Proof.
  intros H. unfold update_live_terminal_message.
  destruct (negb (bool_decide _)); [done|].
  destruct (live_terminals w !! c) as [mid|]; [|done].
  destruct (messages w !! mid) as [old|]; [|by apply P_remove].
  destruct (negb (String.eqb _ text)); [by apply P_messages | done].
Qed.

Lemma accept_line_keeps (response : string) (s : loop_state) :
  P (shared s) -> P (shared (accept_line msg response s)).
Proof.
  intros H. unfold accept_line. destruct (has_key _ _); [|done].
  pose proof (update_live_terminal_message_keeps (shared s) (channel_id msg)
    (Py.join Py.nl (Py.last_n 20 (temp_buffer s ++ [response]))) H) as K.
  by destruct (update_live_terminal_message _ _ _).
Qed.

Lemma drain_line_keeps (raw : list byte) (s : loop_state) :
  P (shared s) -> P (shared (drain_line decode msg raw s).2).
Proof.
  intros H. unfold drain_line. destruct (decode raw) as [text| |error];
    cbn [snd]; [|done..].
  destruct (_ && _); [|done].
  destruct (isCompletionIndicator _); cbn [snd shared];
    by apply accept_line_keeps.
Qed.

Lemma drain_keeps (queue : list (list byte)) (s : loop_state) :
  P (shared s) -> P (shared (drain decode msg queue s).2).
Proof.
  revert s. induction queue as [|raw rest IH]; intros s H; simpl; [done|].
  match goal with
  | |- context [drain_line decode msg raw ?s0] =>
      assert (K : P (shared (drain_line decode msg raw s0).2))
        by (apply drain_line_keeps; by apply P_rx);
      destruct (drain_line decode msg raw s0) as [[| |error] s1]
  end; cbn [snd] in *; [by apply IH | done..].
Qed.

Lemma periodic_status_keeps (start_time current_time : Z) (s : loop_state) :
  P (shared s) -> P (shared (periodic_status msg start_time current_time s)).
Proof.
  intros H. unfold periodic_status. destruct (_ && _); [|done].
  match goal with
  | |- context [update_live_terminal_message ?w ?c ?t] =>
      pose proof (update_live_terminal_message_keeps w c t H) as K;
      by destruct (update_live_terminal_message w c t)
  end.
Qed.

Lemma turn_keeps (start_time : Z) (p : poll) (s : loop_state) :
  P (shared s) -> P (shared (turn decode msg start_time p s).2).
Proof.
  intros H. unfold turn.
  pose proof (periodic_status_keeps start_time (t_cur p) s H) as K.
  set (s1 := periodic_status msg start_time (t_cur p) s) in *.
  destruct (fault p); [done|].
  destruct (rx (shared s1) ++ arrivals p) as [|raw rest] eqn:Q.
  - unfold idle_turn. cbn [shared].
    destruct (_ && _); [|by apply P_rx].
    destruct (has_completion _); [by apply P_rx|].
    destruct (5000 <? _); by apply P_rx.
  - unfold data_turn.
    match goal with
    | |- context [drain decode msg ?q ?s0] =>
        assert (D : P (shared (drain decode msg q s0).2))
          by (apply drain_keeps; by apply P_rx);
        by destruct (drain decode msg q s0) as [[| |error] s2]
    end.
Qed.

Lemma read_loop_keeps (timeout start_time : Z) (ps : list poll)
    (s : loop_state) :
  P (shared s) -> P (shared (read_loop decode msg timeout start_time ps s).2).
Proof.
  revert s. induction ps as [|p ps IH]; intros s H; simpl; [done|].
  destruct (_ <? timeout); [|done].
  pose proof (turn_keeps start_time p s H) as K.
  destruct (turn decode msg start_time p s) as [[| |error] s1];
    cbn [snd] in *; [by apply IH | done..].
Qed.

Lemma tell_sinks_keeps (text : string) (w : world) :
  P w -> P (tell_sinks msg text w).1.
Proof.
  intros H. unfold tell_sinks. destruct (has_key _ _); [|done].
  pose proof (update_live_terminal_message_keeps w (channel_id msg) text H).
  by destruct (update_live_terminal_message _ _ _).
Qed.

Lemma final_update_keeps (s : loop_state) :
  P (shared s) -> P (final_update msg s).1.
Proof.
  intros H. unfold final_update. destruct (temp_buffer s) as [|l ls]; [done|].
  destruct (has_key _ _); [|done].
  match goal with
  | |- context [update_live_terminal_message ?w ?c ?t] =>
      assert (K : P (update_live_terminal_message w c t).1)
        by (apply update_live_terminal_message_keeps; by apply P_store);
      by destruct (update_live_terminal_message w c t)
  end.
Qed.

Lemma on_message_keeps (w : world) (sc : script) :
  P w -> P (on_message decode w msg sc).1.2.
Proof.
  intros H. unfold on_message.
  destruct (author_bot msg); [done|].
  destruct (negb (_ || _)); [done|].
  destruct (Py.startswith "/" (content msg)); [done|].
  destruct (negb (serial_open w)).
  { pose proof (tell_sinks_keeps "Not connected to serial device" w H).
    by destruct (tell_sinks _ _ _). }
  assert (S : P (start_exchange w msg sc).1.2).
  { unfold start_exchange. destruct (start_fault sc) as [[[] e]|]; [done..|].
    unfold readline. cbn [rx set_rx].
    destruct (rx w ++ echo_arrivals sc); cbn [fst snd];
      [by apply P_rx | by apply P_rx, P_rx]. }
  destruct (start_exchange w msg sc) as [[[e|] w1] a1]; cbn [fst snd] in S.
  { pose proof (tell_sinks_keeps ("Error: " +:+ e) w1 S).
    by destruct (tell_sinks _ _ _). }
  set (first := if has_key (live_terminals w1) (channel_id msg) then _ else _).
  assert (F : P first.1).
  { unfold first. destruct (has_key _ _); [|done].
    match goal with
    | |- context [update_live_terminal_message ?w ?c ?t] =>
        pose proof (update_live_terminal_message_keeps w c t S);
        by destruct (update_live_terminal_message w c t)
    end. }
  destruct first as [w2 a2]. cbn [fst] in F.
  match goal with
  | |- context [read_loop decode msg ?t ?st ?ps ?s0] =>
      pose proof (read_loop_keeps t st ps s0 F) as L;
      destruct (read_loop decode msg t st ps s0) as [how s]
  end.
  cbn [snd] in L. destruct how as [| |e|].
  - pose proof (final_update_keeps s L). by destruct (final_update msg s).
  - pose proof (final_update_keeps s L). by destruct (final_update msg s).
  - pose proof (tell_sinks_keeps ("Error: " +:+ e) (shared s) L).
    by destruct (tell_sinks _ _ _).
  - done.
Qed.

End Preserved.

Lemma buffers_bounded_remove (c : Z) (w : world) :
  buffers_bounded w -> buffers_bounded (remove_invalid_terminal c w).
Proof.
  intros H k b. unfold remove_invalid_terminal, unregister_live, py_del.
  destruct (has_key _ _); [|apply H].
  destruct (live_terminals w !! c); [|apply H].
  destruct (live_buffers w !! c); cbn [fst live_buffers set_live]; [|apply H].
  intros Hk. apply lookup_delete_Some in Hk as [_ Hk]. by eapply H.
Qed.

Lemma buffers_bounded_store (c : Z) (lines : list string) (w : world) :
  buffers_bounded w ->
  buffers_bounded (store_live_buffer c (Py.last_n 20 lines) w).
Proof.
  intros H k b. unfold store_live_buffer.
  destruct (has_key _ _); [|apply H]. cbn [live_buffers set_live].
  intros Hk. apply lookup_insert_Some in Hk as [[_ <-] | [_ Hk]].
  - apply last_n_length.
  - by eapply H.
Qed.

(** X6: the buffer of a live terminal is a rolling buffer: when every stored
    buffer has at most twenty lines, this is still so after a message was
    handled, after an update of a live terminal message and after
    [/liveterminal]. *)
Theorem live_buffers_stay_bounded (w : world) :
  buffers_bounded w ->
  (forall decode msg sc, buffers_bounded (on_message decode w msg sc).1.2) /\
  (forall c text, buffers_bounded (update_live_terminal_message w c text).1) /\
  (forall c, buffers_bounded (toggle_live_terminal w c).1.1).
Proof.
  intros H. split; [|split].
  - intros decode msg sc.
    apply (on_message_keeps buffers_bounded); try done.
    + apply buffers_bounded_remove.
    + apply buffers_bounded_store.
  - intros c text.
    apply (update_live_terminal_message_keeps buffers_bounded); try done.
    apply buffers_bounded_remove.
  - intros c. unfold toggle_live_terminal.
    destruct (live_terminals w !! c) as [mid|].
    + set (w1 := if _ && _ then _ else _).
      assert (H1 : buffers_bounded w1.1).
      { unfold w1. by destruct (_ && _). }
      destruct w1 as [w1 a1]. cbn [fst] in H1.
      assert (H2 : buffers_bounded (unregister_live c w1).1).
      { intros k b. unfold unregister_live, py_del.
        destruct (live_terminals w1 !! c); [|apply H1].
        destruct (live_buffers w1 !! c); cbn [fst live_buffers set_live];
          [|apply H1].
        intros Hk. apply lookup_delete_Some in Hk as [_ Hk]. by eapply H1. }
      by destruct (unregister_live c w1) as [w2 []].
    + destruct (bool_decide _); [|done]. cbn [fst]. intros k b.
      cbn [register_live live_buffers set_live set_messages].
      intros Hk. apply lookup_insert_Some in Hk as [[_ <-] | [_ Hk]].
      * simpl. lia.
      * by eapply H.
Qed.

Lemma live_buffers_stay_bounded_witness :
  buffers_bounded live_world /\
  buffers_bounded
    (on_message decode_ascii_strict live_world AT silent_device).1.2.
Proof.
  assert (B : buffers_bounded live_world).
  { intros k b Hk. change (live_buffers live_world) with (<[7 := []]> (∅ : gmap Z (list string))) in Hk.
    apply lookup_insert_Some in Hk as [[_ <-] | [_ Hk]]; [simpl; lia | done]. }
  split; [exact B|].
  exact (proj1 (live_buffers_stay_bounded live_world B)
           decode_ascii_strict AT silent_device).
Defined.

(** ** More on the live terminal message *)

Lemma lstrip_by_all (p : ascii -> bool) (r : string) :
  Py.all_chars p r = true -> Py.lstrip_by p r = "".
Proof.
  induction r as [|c r IH]; simpl; [done|].
  intros H. apply andb_true_iff in H as [-> H]. by apply IH.
Qed.

Lemma lstrip_by_app (p : ascii -> bool) (s r : string) :
  Py.lstrip_by p (s +:+ r) =
    match Py.lstrip_by p s with
    | EmptyString => Py.lstrip_by p r
    | t => t +:+ r
    end.
Proof.
  induction s as [|c s IH]; [done|].
  rewrite append_String. simpl. by destruct (p c).
Qed.

Lemma strip_by_pad (p : ascii -> bool) (l s r : string) :
  Py.all_chars p l = true -> Py.all_chars p r = true ->
  Py.strip_by p (l +:+ s +:+ r) = Py.strip_by p s.
Proof.
  intros Hl Hr. unfold Py.strip_by.
  rewrite lstrip_by_space by done. rewrite lstrip_by_app.
  destruct (Py.lstrip_by p s) as [|c t].
  - by rewrite lstrip_by_all.
  - by apply rstrip_by_space.
Qed.

(** X7: the wrapping of [update_live_terminal_message] and the reading back
    of the current content compose to the removal of the backquotes and
    newlines at the two ends of the content: what is read back from a message
    is the content that was shown, stripped. *)
Theorem code_block_read_back (content : string) :
  Py.strip_chars ("```" +:+ Py.nl) (code_block content)
    = Py.strip_chars ("```" +:+ Py.nl) content.
Proof.
  unfold code_block, Py.strip_chars.
  replace ("```" +:+ Py.nl +:+ content +:+ Py.nl +:+ "```")
    with (("```" +:+ Py.nl) +:+ content +:+ (Py.nl +:+ "```")) by done.
  by apply strip_by_pad.
Qed.

Lemma second_update (w w1 : world) (c : Z) (content : string) (e : action)
    (es : list action) :
  update_live_terminal_message w c content = (w1, e :: es) ->
  (update_live_terminal_message w1 c content).2 =
    if String.eqb (Py.strip_chars ("```" +:+ Py.nl) content) content
    then [] else [e].
Proof.
  unfold update_live_terminal_message.
  destruct (bool_decide (c ∈ channels w)) eqn:Hc; cbn [negb]; [|done].
  destruct (live_terminals w !! c) as [mid|] eqn:Hmid; [|done].
  destruct (messages w !! mid) as [text|] eqn:Htext; [|done].
  destruct (negb (String.eqb _ content)); [|done].
  intros [= <- <- <-]. cbn [channels live_terminals messages set_messages].
  rewrite Hc, Hmid, lookup_insert_eq. cbn [negb].
  unfold code_block, Py.strip_chars.
  replace ("```" +:+ Py.nl +:+ content +:+ Py.nl +:+ "```")
    with (("```" +:+ Py.nl) +:+ content +:+ (Py.nl +:+ "```")) by done.
  rewrite strip_by_pad by done.
  by destruct (String.eqb _ content).
Qed.

(** X8: when an update has edited the live terminal message, showing the
    same content once more edits nothing exactly when the content neither
    starts nor ends with a backquote or a newline; otherwise the same edit
    is made again. *)
Theorem same_content_again (w w1 : world) (c : Z) (content : string)
    (e : action) (es : list action) :
  update_live_terminal_message w c content = (w1, e :: es) ->
  ((update_live_terminal_message w1 c content).2 = [] <->
   Py.strip_chars ("```" +:+ Py.nl) content = content) /\
  ((update_live_terminal_message w1 c content).2 = [e] <->
   Py.strip_chars ("```" +:+ Py.nl) content <> content).
Proof.
  intros H. rewrite (second_update _ _ _ _ _ _ H).
  destruct (String.eqb _ content) eqn:E.
  - apply String.eqb_eq in E. split; split; done.
  - apply String.eqb_neq in E. split; split; done.
Qed.

Lemma same_content_again_witness :
  exists w1 e,
    update_live_terminal_message live_world 7 "+CWJAP:1" = (w1, [e]) /\
    (update_live_terminal_message w1 7 "+CWJAP:1").2 = [].
Proof.
  eexists _, _. split; [vm_compute; reflexivity|].
  apply (proj1 (same_content_again live_world _ 7 "+CWJAP:1" _ []
                  ltac:(vm_compute; reflexivity))).
  vm_compute. reflexivity.
Defined.

(** X9: when the message of a live terminal is gone, an update of it edits
    nothing and takes the channel out of the live terminals and out of the
    buffers; the other channels and all messages are left as they are, and a
    further update for the channel does nothing. *)
Theorem invalid_terminal_removed (w : world) (c message_id : Z)
    (content : string) :
  c ∈ channels w ->
  live_terminals w !! c = Some message_id ->
  messages w !! message_id = None ->
  let r := update_live_terminal_message w c content in
  r.2 = [] /\
  live_terminals r.1 = delete c (live_terminals w) /\
  live_buffers r.1 = delete c (live_buffers w) /\
  messages r.1 = messages w /\
  terminal_channels r.1 = terminal_channels w /\
  (forall text, update_live_terminal_message r.1 c text = (r.1, [])).
Proof.
  intros Hc Hmid Hgone.
  assert (E : update_live_terminal_message w c content
              = (set_live (delete c (live_terminals w))
                          (delete c (live_buffers w)) w, [])).
  { unfold update_live_terminal_message.
    rewrite bool_decide_eq_true_2 by done. cbn [negb]. rewrite Hmid, Hgone.
    unfold remove_invalid_terminal, unregister_live, py_del, has_key.
    rewrite Hmid.
    destruct (live_buffers w !! c) eqn:Hb; cbn [fst]; [done|].
    by rewrite (delete_id (live_buffers w) c). }
  cbn zeta. rewrite E. cbn [fst snd live_terminals live_buffers messages
    terminal_channels set_live]. repeat split.
  intros text. unfold update_live_terminal_message.
  cbn [channels live_terminals set_live].
  rewrite bool_decide_eq_true_2 by done. cbn [negb].
  by rewrite lookup_delete_eq.
Qed.

Lemma invalid_terminal_removed_witness :
  let w := set_messages ∅ 101 live_world in
  let r := update_live_terminal_message w 7 "OK" in
  r.2 = [] /\ live_terminals r.1 = ∅ /\ live_buffers r.1 = ∅.
Proof.
  intros w r.
  destruct (invalid_terminal_removed w 7 100 "OK") as (A & T & B & _).
  - change (7 ∈ ({[7]} : gset Z)). by apply elem_of_singleton_2.
  - reflexivity.
  - reflexivity.
  - split; [exact A|]. fold r in T, B. rewrite T, B. split.
    + change (live_terminals w) with (<[7 := 100]> (∅ : gmap Z Z)).
      by rewrite delete_insert_eq, delete_empty.
    + change (live_buffers w) with (<[7 := []]> (∅ : gmap Z (list string))).
      by rewrite delete_insert_eq, delete_empty.
Defined.

(** X10: an update for one channel leaves the other channels alone: their
    live terminals and buffers, every message but the one registered for
    the channel, the plain terminals and the serial side are unchanged. *)
Theorem update_touches_one_channel (w : world) (c : Z) (content : string) :
  let w' := (update_live_terminal_message w c content).1 in
  (forall c', c' <> c ->
     live_terminals w' !! c' = live_terminals w !! c' /\
     live_buffers w' !! c' = live_buffers w !! c') /\
  (forall m, live_terminals w !! c <> Some m ->
     messages w' !! m = messages w !! m) /\
  terminal_channels w' = terminal_channels w /\
  serial_open w' = serial_open w /\ rx w' = rx w.
Proof.
  unfold update_live_terminal_message.
  destruct (negb (bool_decide _)); [by repeat split|].
  destruct (live_terminals w !! c) as [mid|] eqn:Hmid; [|by repeat split].
  destruct (messages w !! mid) as [text|].
  - destruct (negb (String.eqb _ content)); [|by repeat split].
    cbn [fst live_terminals live_buffers messages set_messages
         terminal_channels serial_open rx]. repeat split.
    intros m Hm. apply lookup_insert_ne. congruence.
  - unfold remove_invalid_terminal, unregister_live, py_del, has_key.
    rewrite Hmid.
    destruct (live_buffers w !! c) eqn:Hb;
      cbn [fst live_terminals live_buffers messages set_live
           terminal_channels serial_open rx]; repeat split;
      try (by rewrite lookup_delete_ne); done.
Qed.

(** ** [/liveterminal] and [/terminal] *)

(** X11: [/liveterminal] twice in a channel that is no live terminal brings
    the channel back to where it was: the first call sends the message
    [Waiting for output...] and registers the channel with an empty buffer,
    the second call deletes that message and takes the channel out of both
    dictionaries; the dictionaries and the messages are as before. *)
Theorem live_terminal_on_and_off (w : world) (c : Z) :
  c ∈ channels w ->
  live_terminals w !! c = None ->
  live_buffers w !! c = None ->
  messages w !! next_message_id w = None ->
  let on := toggle_live_terminal w c in
  let off := toggle_live_terminal on.1.1 c in
  on.2 = LiveEnabled /\
  on.1.2 = [ChannelSend c (code_block "Waiting for output...")] /\
  live_terminals on.1.1 !! c = Some (next_message_id w) /\
  live_buffers on.1.1 !! c = Some [] /\
  off.2 = LiveDisabled /\
  off.1.2 = [MessageDelete c (next_message_id w)] /\
  live_terminals off.1.1 = live_terminals w /\
  live_buffers off.1.1 = live_buffers w /\
  messages off.1.1 = messages w /\
  terminal_channels off.1.1 = terminal_channels w.
Proof.
  intros Hc Ht Hb Hm on off.
  assert (Eon : on = (register_live c (next_message_id w)
                        (set_messages
                           (<[next_message_id w
                              := code_block "Waiting for output..."]>
                              (messages w))
                           (next_message_id w + 1) w),
                      [ChannelSend c (code_block "Waiting for output...")],
                      LiveEnabled)).
  { unfold on, toggle_live_terminal. rewrite Ht.
    by rewrite bool_decide_eq_true_2. }
  assert (Eoff : off = (set_live (live_terminals w) (live_buffers w)
                          (set_messages (messages w) (next_message_id w + 1) w),
                        [MessageDelete c (next_message_id w)], LiveDisabled)).
  { unfold off. rewrite Eon. cbn [fst snd]. unfold toggle_live_terminal.
    cbn [register_live live_terminals live_buffers set_live set_messages
         channels messages next_message_id].
    rewrite lookup_insert_eq, bool_decide_eq_true_2 by done.
    unfold has_key. rewrite lookup_insert_eq. cbn [andb].
    unfold unregister_live, py_del.
    cbn [register_live live_terminals live_buffers set_live set_messages
         messages next_message_id].
    rewrite !lookup_insert_eq.
    rewrite !delete_insert_eq, !delete_id by done. reflexivity. }
  rewrite Eoff, Eon. cbn [fst snd register_live live_terminals live_buffers
    set_live set_messages messages terminal_channels].
  rewrite !lookup_insert_eq. by repeat split.
Qed.

Lemma live_terminal_on_and_off_witness :
  let on := toggle_live_terminal plain_world 7 in
  let off := toggle_live_terminal on.1.1 7 in
  on.2 = LiveEnabled /\ off.2 = LiveDisabled /\
  live_terminals off.1.1 = ∅ /\ live_buffers off.1.1 = ∅ /\
  messages off.1.1 = ∅.
Proof.
  intros on off.
  assert (Hc : 7 ∈ channels plain_world).
  { change (7 ∈ ({[7]} : gset Z)). by apply elem_of_singleton_2. }
  destruct (live_terminal_on_and_off plain_world 7 Hc eq_refl eq_refl eq_refl)
    as (A & _ & _ & _ & B & _ & T & L & M & _).
  by repeat split.
Defined.

(** X12: [/terminal] is a switch: called twice in a channel it gives back
    the state it started from, with the two replies one after the other.
    After the reply that the mode is enabled, a message of a user in the
    channel that does not start with a slash is not ignored; after the reply
    that it is disabled, every message in the channel is ignored unless the
    channel is a live terminal. *)
Theorem terminal_mode_switch (w : world) (c : Z) :
  let first := toggle_terminal w c in
  let second := toggle_terminal first.1 c in
  second.1 = w /\
  (first.2 = TerminalEnabled <-> c ∉ terminal_channels w) /\
  (second.2 = TerminalEnabled <-> c ∈ terminal_channels w) /\
  (forall decode msg sc,
     channel_id msg = c -> author_bot msg = false ->
     Py.startswith "/" (content msg) = false ->
     first.2 = TerminalEnabled ->
     (on_message decode first.1 msg sc).1.1 <> Ignored) /\
  (forall decode msg sc,
     channel_id msg = c -> has_key (live_terminals w) c = false ->
     first.2 = TerminalDisabled ->
     (on_message decode first.1 msg sc).1.1 = Ignored).
Proof.
  unfold toggle_terminal.
  destruct (bool_decide (c ∈ terminal_channels w)) eqn:Hin.
  - apply bool_decide_eq_true_1 in Hin.
    cbn [fst snd terminal_channels set_terminal_channels].
    assert (Hout : c ∉ terminal_channels w ∖ {[c]}).
    { rewrite elem_of_difference, elem_of_singleton. by intros [_ []]. }
    rewrite bool_decide_eq_false_2 by done. cbn [fst snd].
    split; [|split; [|split; [|split]]].
    + destruct w. unfold set_terminal_channels. cbn. f_equal.
      symmetry. by apply union_difference_singleton_L.
    + done.
    + done.
    + done.
    + intros decode msg sc <- Hl _. apply on_message_ignored_iff.
      right; left. by split.
  - apply bool_decide_eq_false_1 in Hin.
    cbn [fst snd terminal_channels set_terminal_channels].
    assert (Hnow : c ∈ {[c]} ∪ terminal_channels w).
    { apply elem_of_union. left. by apply elem_of_singleton. }
    rewrite bool_decide_eq_true_2 by done. cbn [fst snd].
    split; [|split; [|split; [|split]]].
    + destruct w. unfold set_terminal_channels. cbn. f_equal.
      apply set_eq. intros x.
      rewrite elem_of_difference, elem_of_union, elem_of_singleton.
      split; [by intros [[->|H] Hn] | intros H; split; [by right|]].
      intros ->. done.
    + done.
    + done.
    + intros decode msg sc <- Hbot Hslash _ Hign.
      apply on_message_ignored_iff in Hign as [H | [[H _] | H]];
        [congruence | | congruence].
      by apply H.
    + done.
Qed.

(** ** [/connect], [/disconnect], [/flush] *)

Section LifecycleFacts.

Variable float : Type.
Variable py_float : string -> option float.

Lemma serial_arguments_spec (c : gmap string (value float)) :
  match Lifecycle.serial_arguments float c with
  | inl s =>
      c !! "port" = Some (Lifecycle.port float s) /\
      c !! "baudrate" = Some (Lifecycle.baudrate float s) /\
      c !! "bytesize" = Some (Lifecycle.bytesize float s) /\
      c !! "parity" = Some (Lifecycle.parity float s) /\
      c !! "stopbits" = Some (Lifecycle.stopbits float s) /\
      c !! "timeout" = Some (Lifecycle.timeout float s) /\
      Lifecycle.is_open float s = true
  | inr e =>
      exists key,
        In key connect_keys /\ c !! key = None /\ e = "'" +:+ key +:+ "'"
  end.
Proof.
  unfold Lifecycle.serial_arguments, Lifecycle.config_item, connect_keys.
  destruct (c !! "port") eqn:E1; [|exists "port"; simpl; auto].
  destruct (c !! "baudrate") eqn:E2; [|exists "baudrate"; simpl; auto].
  destruct (c !! "bytesize") eqn:E3; [|exists "bytesize"; simpl; auto].
  destruct (c !! "parity") eqn:E4; [|exists "parity"; simpl; auto 6].
  destruct (c !! "stopbits") eqn:E5; [|exists "stopbits"; simpl; auto 7].
  destruct (c !! "timeout") eqn:E6; [|exists "timeout"; simpl; auto 8].
  by repeat split.
Qed.

Lemma set_on_bot_connection (changes : list (string * string))
    (b : Lifecycle.bot float) :
  Lifecycle.serial_connection float
    (fold_left (Lifecycle.set_on_bot float py_float) changes b)
  = Lifecycle.serial_connection float b.
Proof.
  revert b. induction changes as [|ch changes IH]; intros b; simpl; [done|].
  by rewrite IH.
Qed.

(** X13: a connection keeps the settings it was opened with. After a
    successful [/connect] the connection holds the six values that the
    configuration had at that moment; whatever is changed with [/set]
    afterwards, the connection is the same object, and a further [/connect]
    answers that the bot is already connected and opens nothing. *)
Theorem connection_keeps_its_settings (d : Lifecycle.device float)
    (b b1 : Lifecycle.bot float) (p r : value float) :
  Lifecycle.connect_serial float d b = (b1, Lifecycle.Connected float p r) ->
  (exists s,
     Lifecycle.serial_connection float b1 = Some s /\
     let c := config (Lifecycle.bot_settings float b) in
     c !! "port" = Some (Lifecycle.port float s) /\
     c !! "baudrate" = Some (Lifecycle.baudrate float s) /\
     c !! "bytesize" = Some (Lifecycle.bytesize float s) /\
     c !! "parity" = Some (Lifecycle.parity float s) /\
     c !! "stopbits" = Some (Lifecycle.stopbits float s) /\
     c !! "timeout" = Some (Lifecycle.timeout float s) /\
     Lifecycle.is_open float s = true /\
     p = Lifecycle.port float s /\ r = Lifecycle.baudrate float s) /\
  (forall changes d',
     let b2 := fold_left (Lifecycle.set_on_bot float py_float) changes b1 in
     Lifecycle.serial_connection float b2
       = Lifecycle.serial_connection float b1 /\
     Lifecycle.connect_serial float d' b2
       = (b2, Lifecycle.AlreadyConnected float)).
Proof.
  unfold Lifecycle.connect_serial.
  destruct (Lifecycle.serial_connection float b) eqn:Hnone; [done|].
  pose proof (serial_arguments_spec (config (Lifecycle.bot_settings float b)))
    as A.
  destruct (Lifecycle.serial_arguments float _) as [s|e]; [|done].
  destruct (Lifecycle.open_error float d s); [done|].
  destruct (Lifecycle.reset_error float d); [done|].
  intros [= <- <- <-]. split.
  - exists s. split; [done|]. cbn zeta.
    destruct A as (A1 & A2 & A3 & A4 & A5 & A6 & A7). by repeat split.
  - intros changes d'. by rewrite set_on_bot_connection.
Qed.

(** X14: [/disconnect] leaves no connection and keeps the settings: a second
    [/disconnect] and a [/flush] answer that the bot is not connected and
    change nothing, and [/connect] followed by [/disconnect] gives back the
    state of a bot that was not connected, whether the open succeeded or
    not. *)
Theorem disconnect_closes (b : Lifecycle.bot float) :
  let b' := (Lifecycle.disconnect_serial float b).1 in
  Lifecycle.serial_connection float b' = None /\
  Lifecycle.bot_settings float b' = Lifecycle.bot_settings float b /\
  Lifecycle.disconnect_serial float b' = (b', Lifecycle.NotConnected float) /\
  (forall d,
     Lifecycle.flush_buffers float d b' = (b', Lifecycle.NotConnected float)) /\
  (Lifecycle.serial_connection float b = None ->
   forall d,
     (Lifecycle.disconnect_serial float
        (Lifecycle.connect_serial float d b).1).1 = b).
Proof.
  cbn zeta. unfold Lifecycle.disconnect_serial, Lifecycle.flush_buffers.
  destruct b as [st [s|]]; cbn; repeat split; try done.
  intros _ d. unfold Lifecycle.connect_serial. cbn.
  destruct (Lifecycle.serial_arguments float (config st)) as [s|e]; [|done].
  destruct (Lifecycle.open_error float d s); [done|].
  by destruct (Lifecycle.reset_error float d).
Qed.

(** X15: [/connect] needs the six settings: when one of them is missing in
    the configuration (the file is loaded as it is, without the defaults),
    the command reports the first missing key between quotes, opens nothing
    and leaves the bot as it was. *)
Theorem connect_needs_all_settings (d : Lifecycle.device float)
    (b : Lifecycle.bot float) (key : string) :
  Lifecycle.serial_connection float b = None ->
  In key connect_keys ->
  config (Lifecycle.bot_settings float b) !! key = None ->
  exists missing,
    In missing connect_keys /\
    config (Lifecycle.bot_settings float b) !! missing = None /\
    Lifecycle.connect_serial float d b
      = (b, Lifecycle.ConnectError float ("'" +:+ missing +:+ "'")).
Proof.
  intros Hnone Hkey Hmiss. unfold Lifecycle.connect_serial. rewrite Hnone.
  pose proof (serial_arguments_spec (config (Lifecycle.bot_settings float b)))
    as A.
  destruct (Lifecycle.serial_arguments float _) as [s|e].
  - exfalso. destruct A as (A1 & A2 & A3 & A4 & A5 & A6 & _).
    unfold connect_keys in Hkey. simpl in Hkey.
    destruct Hkey as [<-|[<-|[<-|[<-|[<-|[<-|[]]]]]]]; congruence.
  - destruct A as (missing & Hin & Hnone' & ->). by exists missing.
Qed.

End LifecycleFacts.

Lemma connection_keeps_its_settings_witness :
  exists b1,
    Lifecycle.connect_serial _ good_device fresh_bot
      = (b1, Lifecycle.Connected _ (VStr "/dev/ttyUSB0") (VInt 9600)) /\
    let b2 := Lifecycle.set_on_bot _ decimal_float b1 ("baudrate", "115200") in
    config (Lifecycle.bot_settings _ b2) !! "baudrate" = Some (VInt 115200) /\
    Lifecycle.serial_connection _ b2 = Lifecycle.serial_connection _ b1 /\
    Lifecycle.connect_serial _ good_device b2
      = (b2, Lifecycle.AlreadyConnected _).
Proof.
  eexists. split; [vm_compute; reflexivity|]. cbn zeta.
  split; [vm_compute; reflexivity|].
  exact (proj2 (connection_keeps_its_settings _ decimal_float good_device
                  fresh_bot _ _ _ ltac:(vm_compute; reflexivity))
           [("baudrate", "115200")] good_device).
Defined.

Lemma connect_needs_all_settings_witness :
  let b := {| Lifecycle.bot_settings :=
                startup _ (Some (delete "timeout" (DEFAULT_CONFIG (Z * N))));
              Lifecycle.serial_connection := None |} in
  exists missing,
    In missing connect_keys /\
    Lifecycle.connect_serial _ good_device b
      = (b, Lifecycle.ConnectError _ ("'" +:+ missing +:+ "'")).
Proof.
  intros b.
  destruct (connect_needs_all_settings _ good_device b "timeout" eq_refl)
    as (missing & Hin & _ & E).
  - unfold connect_keys. simpl. auto 8.
  - vm_compute. reflexivity.
  - by exists missing.
Defined.

(** ** [/encoding] and the configuration file *)

Section EncodingFacts.

Variable float : Type.
Variable py_float : string -> option float.
Variable text_encoding : string -> encode_result.

(** X16: the name of the encoding is checked by [/encoding] only:
    [/set encoding] stores any name and writes it to the file. For a name
    that is unknown or no text encoding, [/encoding] answers that the
    encoding is invalid and changes nothing. For a name whose test raises
    another exception, [/encoding] changes nothing and gives no reply: the
    exception leaves the command. For a name that encodes, [/encoding]
    stores the name and the error policy, whatever the policy is, writes the
    file and changes no other key. *)
Theorem encoding_checked_by_encoding_only (s : settings float)
    (encoding errors : string) (old : value float) :
  config s !! "encoding" = Some old ->
  (let s' := (set_parameter float py_float s "encoding" encoding).1 in
   config s' !! "encoding" = Some (VStr encoding) /\
   config_file s' = Some (config s')) /\
  (text_encoding encoding = EncodeLookupError ->
   set_encoding float text_encoding s encoding errors
     = (s, InvalidEncoding encoding)) /\
  (forall error,
     text_encoding encoding = EncodeRaised error ->
     set_encoding float text_encoding s encoding errors
       = (s, EncodingUncaught error)) /\
  (text_encoding encoding = Encoded ->
   let s' := (set_encoding float text_encoding s encoding errors).1 in
   config s' !! "encoding" = Some (VStr encoding) /\
   config s' !! "encoding_errors" = Some (VStr errors) /\
   config_file s' = Some (config s') /\
   forall key, key <> "encoding" -> key <> "encoding_errors" ->
     config s' !! key = config s !! key).
Proof.
  intros Hold. split; [|split; [|split]].
  - unfold set_parameter, convert. rewrite Hold. cbn.
    split; [|done]. by rewrite lookup_insert_eq.
  - intros Hno. unfold set_encoding. by rewrite Hno.
  - intros error Hno. unfold set_encoding. by rewrite Hno.
  - intros Hyes. unfold set_encoding. rewrite Hyes. cbn.
    rewrite lookup_insert_ne by done. rewrite !lookup_insert_eq.
    repeat split. intros key H1 H2. by rewrite !lookup_insert_ne.
Qed.

(** X17: the configuration of the bot is always what a restart would load:
    in every state reached from the start by [/set] and [/encoding], whether
    they succeed or fail, starting again from the file gives the same
    configuration. *)
Theorem settings_survive_restart (s : settings float) :
  settings_reachable float py_float text_encoding s ->
  startup float (config_file s) = s.
Proof.
  induction 1 as [file | s parameter text _ IH | s encoding errors _ IH].
  - done.
  - unfold set_parameter. destruct (config s !! parameter); [|done].
    by destruct (convert float py_float parameter text).
  - unfold set_encoding. by destruct (text_encoding encoding).
Qed.

End EncodingFacts.

Lemma encoding_checked_by_encoding_only_witness :
  config (set_parameter _ decimal_float default_settings "encoding" "klingon").1
    !! "encoding" = Some (VStr "klingon") /\
  set_encoding _ sample_encodings default_settings "klingon" "strict"
    = (default_settings, InvalidEncoding "klingon") /\
  set_encoding _ sample_encodings default_settings "undefined" "strict"
    = (default_settings, EncodingUncaught "undefined encoding") /\
  config (set_encoding _ sample_encodings default_settings "ascii" "zzz").1
    !! "encoding_errors" = Some (VStr "zzz").
Proof.
  destruct (encoding_checked_by_encoding_only _ decimal_float sample_encodings
              default_settings "klingon" "strict" (VStr "utf-8") eq_refl)
    as ((A & _) & B & _).
  destruct (encoding_checked_by_encoding_only _ decimal_float sample_encodings
              default_settings "undefined" "strict" (VStr "utf-8") eq_refl)
    as (_ & _ & C & _).
  destruct (encoding_checked_by_encoding_only _ decimal_float sample_encodings
              default_settings "ascii" "zzz" (VStr "utf-8") eq_refl)
    as (_ & _ & _ & D).
  split; [exact A|]. split; [exact (B eq_refl)|].
  split; [exact (C _ eq_refl)|]. exact (proj1 (proj2 (D eq_refl))).
Defined.

Lemma settings_survive_restart_witness :
  let s := (set_parameter _ decimal_float
              (set_encoding _ sample_encodings (startup _ None)
                            "ascii" "strict").1
              "baudrate" "115200").1 in
  settings_reachable _ decimal_float sample_encodings s /\
  config s !! "baudrate" = Some (VInt 115200) /\
  startup _ (config_file s) = s.
Proof.
  intros s.
  assert (R : settings_reachable _ decimal_float sample_encodings s).
  { apply settings_set, settings_encoding, settings_start. }
  split; [exact R|]. split; [vm_compute; reflexivity|].
  exact (settings_survive_restart _ decimal_float sample_encodings s R).
Defined.

(** ** The line of a raw response in hexadecimal *)

Lemma byte_of_hex2 (b : byte) :
  exists hi lo,
    hex2 b = String hi (String lo "") /\ byte_of_hex hi lo = Some b.
Proof. eexists _, _. split; [reflexivity|]. by destruct b. Qed.

Lemma unhex_step (hi lo c : ascii) (rest : string) (b : byte) :
  byte_of_hex hi lo = Some b ->
  unhex (String hi (String lo (String " " (String c rest))))
    = cons b <$> unhex (String c rest).
Proof. intros H. cbn [unhex]. rewrite H. reflexivity. Qed.

Lemma unhex_hex (b : byte) (raw : list byte) :
  unhex (Py.join " " (map hex2 (b :: raw))) = Some (b :: raw).
Proof.
  revert b. induction raw as [|b' raw IH]; intros b.
  - destruct (byte_of_hex2 b) as (hi & lo & E & H). unfold Py.join.
    change (String.concat " " (map hex2 [b])) with (hex2 b).
    rewrite E. cbn [unhex]. by rewrite H.
  - destruct (byte_of_hex2 b) as (hi & lo & E & H).
    specialize (IH b'). unfold Py.join in *.
    change (String.concat " " (map hex2 (b :: b' :: raw)))
      with (hex2 b +:+ " " +:+ String.concat " " (map hex2 (b' :: raw))).
    destruct (byte_of_hex2 b') as (hi' & lo' & E' & _).
    destruct (String.concat " " (map hex2 (b' :: raw))) as [|c rest] eqn:R.
    + exfalso. cbn [map String.concat] in R. rewrite E' in R.
      destruct (map hex2 raw); discriminate.
    + rewrite E.
      change (String hi (String lo "") +:+ " " +:+ String c rest)
        with (String hi (String lo (String " " (String c rest)))).
      by rewrite (unhex_step _ _ _ _ _ H), IH.
Qed.

(** X18: the line that stands for a raw response that does not decode loses
    nothing: the bytes can be read back from the digits after
    [Raw hex data: ], so two raw responses with the same line are equal. *)
Theorem hex_line_round_trip (raw : list byte) :
  unhex (Py.join " " (map hex2 raw)) = Some raw /\
  (forall raw', hex_response raw = hex_response raw' -> raw = raw').
Proof.
  assert (U : forall r, unhex (Py.join " " (map hex2 r)) = Some r).
  { intros [|b r]; [done | apply unhex_hex]. }
  split; [apply U|].
  intros raw' E. unfold hex_response in E.
  apply (inj (String.app "Raw hex data: ")) in E.
  pose proof (U raw) as U1. rewrite E, U in U1. by injection U1.
Qed.

(** ** The line that is read as the echo *)

Section EchoFacts.

Variable decode : list byte -> decoded.
Variable msg : message.
Variable timeout : Z.
Variable start_time : Z.
Variable before : list action.

Lemma prepend_accept_line (response : string) (s : loop_state) :
  accept_line msg response (prepend before s)
    = prepend before (accept_line msg response s).
Proof.
  unfold accept_line, prepend. cbn [shared temp_buffer done].
  destruct (has_key _ _); [|done].
  destruct (update_live_terminal_message _ _ _) as [w acts].
  cbn. by rewrite <- app_assoc.
Qed.

Lemma prepend_drain_line (raw : list byte) (s : loop_state) :
  drain_line decode msg raw (prepend before s)
    = ((drain_line decode msg raw s).1,
       prepend before (drain_line decode msg raw s).2).
Proof.
  unfold drain_line. destruct (decode raw) as [text| |error]; [|done..].
  destruct (_ && _); [|done]. rewrite prepend_accept_line.
  by destruct (isCompletionIndicator _).
Qed.

Lemma prepend_drain (queue : list (list byte)) (s : loop_state) :
  drain decode msg queue (prepend before s)
    = ((drain decode msg queue s).1,
       prepend before (drain decode msg queue s).2).
Proof.
  revert s. induction queue as [|raw rest IH]; intros s; [done|].
  cbn [drain].
  set (s0 := {| temp_buffer := temp_buffer s; no_data_count := no_data_count s;
                last_read_time := last_read_time s;
                last_update_time := last_update_time s;
                shared := set_rx rest (shared s);
                done := done s ++ [SerialReadline raw] |}).
  replace {| temp_buffer := temp_buffer (prepend before s);
             no_data_count := no_data_count (prepend before s);
             last_read_time := last_read_time (prepend before s);
             last_update_time := last_update_time (prepend before s);
             shared := set_rx rest (shared (prepend before s));
             done := done (prepend before s) ++ [SerialReadline raw] |}
    with (prepend before s0)
    by (unfold prepend, s0; cbn; by rewrite <- app_assoc).
  rewrite prepend_drain_line.
  destruct (drain_line decode msg raw s0) as [[| |error] s1]; cbn [fst snd];
    [apply IH | done..].
Qed.

Lemma prepend_periodic_status (current_time : Z) (s : loop_state) :
  periodic_status msg start_time current_time (prepend before s)
    = prepend before (periodic_status msg start_time current_time s).
Proof.
  unfold periodic_status, prepend.
  cbn [shared temp_buffer done last_update_time].
  destruct (_ && _); [|done].
  destruct (update_live_terminal_message _ _ _) as [w acts].
  cbn. by rewrite <- app_assoc.
Qed.

Lemma prepend_turn (p : poll) (s : loop_state) :
  turn decode msg start_time p (prepend before s)
    = ((turn decode msg start_time p s).1,
       prepend before (turn decode msg start_time p s).2).
Proof.
  unfold turn. rewrite prepend_periodic_status.
  set (s1 := periodic_status msg start_time (t_cur p) s).
  destruct (fault p); [done|].
  cbn [shared prepend]. destruct (rx (shared s1) ++ arrivals p) as [|raw rest].
  - unfold idle_turn, prepend.
    cbn [temp_buffer no_data_count last_read_time done shared
         last_update_time].
    destruct (_ && _); [|cbn; by rewrite <- app_assoc].
    destruct (has_completion _); [cbn; by rewrite <- app_assoc|].
    destruct (5000 <? _); cbn; by rewrite <- app_assoc.
  - unfold data_turn.
    cbn [temp_buffer no_data_count last_read_time last_update_time shared
         done prepend].
    set (s2 := {| temp_buffer := temp_buffer s1; no_data_count := 0;
                  last_read_time := last_read_time s1;
                  last_update_time := last_update_time s1;
                  shared := set_rx (raw :: rest) (shared s1);
                  done := done s1 |}).
    change {| temp_buffer := temp_buffer s1; no_data_count := 0;
              last_read_time := last_read_time s1;
              last_update_time := last_update_time s1;
              shared := set_rx (raw :: rest) (shared s1);
              done := before ++ done s1 |}
      with (prepend before s2).
    rewrite prepend_drain.
    by destruct (drain decode msg (raw :: rest) s2) as [[| |error] s3].
Qed.

Lemma prepend_read_loop (ps : list poll) (s : loop_state) :
  read_loop decode msg timeout start_time ps (prepend before s)
    = ((read_loop decode msg timeout start_time ps s).1,
       prepend before (read_loop decode msg timeout start_time ps s).2).
Proof.
  revert s. induction ps as [|p ps IH]; intros s; [done|].
  cbn [read_loop]. destruct (_ <? timeout); [|done].
  rewrite prepend_turn.
  destruct (turn decode msg start_time p s) as [[| |error] s1];
    cbn [fst snd]; [apply IH | done..].
Qed.

Lemma prepend_final_update (s : loop_state) :
  final_update msg (prepend before s)
    = ((final_update msg s).1, before ++ (final_update msg s).2).
Proof.
  unfold final_update, prepend. cbn [temp_buffer shared done].
  destruct (temp_buffer s); [done|].
  destruct (has_key _ _); [|cbn; by rewrite <- app_assoc].
  destruct (update_live_terminal_message _ _ _) as [w acts].
  cbn. by rewrite <- app_assoc.
Qed.

End EchoFacts.

Lemma session_after_echo (decode : list byte -> decoded) (msg : message)
    (sc : script) (w1 : world) :
  exists out w' rest, forall before : list action,
    (let '(w2, acts2) :=
       if has_key (live_terminals w1) (channel_id msg) then
         let text := "Processing command (timeout: "
                     +:+ render_seconds (timeout_for (content msg))
                     +:+ "s)..." in
         let '(w2, edits) :=
           update_live_terminal_message w1 (channel_id msg) text in
         (w2, LiveUpdate (channel_id msg) text :: edits)
       else (w1, []) in
     match read_loop decode msg (timeout_for (content msg)) (t_start sc)
             (polls sc)
             {| temp_buffer := []; no_data_count := 0;
                last_read_time := t_start sc; last_update_time := t_start sc;
                shared := w2; done := before ++ acts2 ++ [Sleep 500] |} with
     | (Raised error, s) =>
         let '(w3, acts3) :=
           tell_sinks msg ("Error: " +:+ error) (shared s) in
         (Ended (Raised error), w3, done s ++ acts3)
     | (Polling, s) => (Ended Polling, shared s, done s)
     | (how, s) =>
         let '(w3, acts3) := final_update msg s in
         (Ended how, w3, acts3)
     end) = (out, w', before ++ rest).
Proof.
  destruct (if has_key (live_terminals w1) (channel_id msg) then _ else _)
    as [w2 acts2].
  set (s0 := {| temp_buffer := []; no_data_count := 0;
                last_read_time := t_start sc; last_update_time := t_start sc;
                shared := w2; done := acts2 ++ [Sleep 500] |}).
  destruct (read_loop decode msg (timeout_for (content msg)) (t_start sc)
              (polls sc) s0) as [how s] eqn:L.
  assert (Run : forall before,
             read_loop decode msg (timeout_for (content msg)) (t_start sc)
               (polls sc)
               {| temp_buffer := []; no_data_count := 0;
                  last_read_time := t_start sc;
                  last_update_time := t_start sc; shared := w2;
                  done := before ++ acts2 ++ [Sleep 500] |}
             = (how, prepend before s)).
  { intros before.
    change {| temp_buffer := []; no_data_count := 0;
              last_read_time := t_start sc; last_update_time := t_start sc;
              shared := w2; done := before ++ acts2 ++ [Sleep 500] |}
      with (prepend before s0).
    by rewrite prepend_read_loop, L. }
  destruct how as [| |error|].
  - destruct (final_update msg s) as [w3 a3] eqn:F.
    exists (Ended TimedOut), w3, a3. intros before.
    by rewrite Run, prepend_final_update, F.
  - destruct (final_update msg s) as [w3 a3] eqn:F.
    exists (Ended Broke), w3, a3. intros before.
    by rewrite Run, prepend_final_update, F.
  - destruct (tell_sinks msg ("Error: " +:+ error) (shared s))
      as [w3 a3] eqn:T.
    exists (Ended (Raised error)), w3, (done s ++ a3). intros before.
    rewrite Run. cbn [shared prepend done]. rewrite T.
    by rewrite <- app_assoc.
  - exists (Ended Polling), (shared s), (done s). intros before.
    by rewrite Run.
Qed.

Lemma on_message_with_echo (decode : list byte -> decoded) (w : world)
    (msg : message) (sc : script) :
  rx w = [] ->
  exists out w' rest,
    (forall line,
       on_message decode w msg (with_echo sc line) = (out, w', rest))
    \/ (forall line,
          on_message decode w msg (with_echo sc line)
          = (out, w', exchange msg line ++ rest)).
Proof.
  intros Hrx. unfold on_message.
  destruct (author_bot msg); [exists Ignored, w, []; by left|].
  destruct (negb (_ || _)); [exists Ignored, w, []; by left|].
  destruct (Py.startswith "/" (content msg));
    [exists Ignored, w, []; by left|].
  destruct (negb (serial_open w)).
  { destruct (tell_sinks _ _ _) as [w1 a1]. exists NotConnected, w1, a1.
    by left. }
  unfold start_exchange, with_echo, readline.
  cbn [start_fault echo_arrivals t_start polls rx set_rx]. rewrite Hrx.
  cbn [app]. cbn [live_terminals set_rx].
  destruct (session_after_echo decode msg sc (set_rx [] w))
    as (out & w' & rest & H).
  exists out, w', rest. right. intros line.
  exact (H (exchange msg line)).
Qed.

(** X19: the line that is read after the write is dropped whatever it is.
    When the input buffer is empty at the start, two sessions that differ
    only in the line that the device has sent when the echo is read end in
    the same way, leave the same state and do the same actions, but for that
    one read: the line is not compared with the command, and when the device
    does not echo, the first line of its answer is lost. *)
Theorem echo_line_is_dropped (decode : list byte -> decoded) (w : world)
    (msg : message) (sc : script) (line1 line2 : list byte) :
  rx w = [] ->
  let run1 := on_message decode w msg (with_echo sc line1) in
  let run2 := on_message decode w msg (with_echo sc line2) in
  run1.1 = run2.1 /\
  exists rest,
    (run1.2 = rest /\ run2.2 = rest) \/
    (run1.2 = exchange msg line1 ++ rest /\
     run2.2 = exchange msg line2 ++ rest).
Proof.
  intros Hrx run1 run2. unfold run1, run2.
  destruct (on_message_with_echo decode w msg sc Hrx)
    as (out & w' & rest & [H | H]); rewrite !H; cbn [fst snd].
  - split; [done|]. exists rest. by left.
  - split; [done|]. exists rest. by right.
Qed.

Lemma echo_line_is_dropped_witness :
  rx plain_world = [] /\
  (on_message decode_ascii_strict plain_world AT
     (with_echo silent_device (text_line "AT"))).1
  = (on_message decode_ascii_strict plain_world AT
       (with_echo silent_device (text_line "OK"))).1.
Proof.
  split; [reflexivity|].
  exact (proj1 (echo_line_is_dropped decode_ascii_strict plain_world AT
                  silent_device (text_line "AT") (text_line "OK") eq_refl)).
Defined.
